(** * video-slicer: job orchestration and progress reporting

    A shallow embedding of [app.py] (the Flask front end with its background
    worker) and [slice.py] (the command line tool), and the properties of
    the estimator, the prober, the worker's state machine, the progress
    parser and the progress stream.

    Modelling conventions.
    - Python [int] is [Z]; Python [float] is an exact rational [Q]: rounding,
      infinities and NaN are outside the model.
    - Python [str] is [string]; characters are the code points below 256.
    - Exceptions are values of [exn]; a computation that may raise returns a
      [result].
    - Everything the program asks its environment (ffprobe, ffmpeg, the file
      system, the clock, uuid4) is answered by a [World] of oracles.
    - The worker thread mutates one shared job record; its run is the list of
      the record's successive values, one per field write, and a concurrent
      reader is given the position of the history at each of its reads. *)

From Stdlib Require Import ZArith QArith Qminmax Qround Lia Bool DecimalString.
From Stdlib Require Import Ascii String List Sorted Permutation.
From stdpp Require Import base option gmap strings sorting.

Import ListNotations.
Local Open Scope string_scope.
Local Open Scope Z_scope.

(** ** Exceptions and results *)

Module Py.

Inductive exn_kind : Type :=
  | CalledProcessError
  | ValueError
  | OSError
  | ZeroDivisionError
  | RuntimeError
  | AssertionError
  | KeyError
  | HTTPException (code : Z).

(** An exception is its class and the text [str(e)] gives. *)
Record exn : Type := Exn { exn_class : exn_kind; exn_text : string }.

Inductive result (A : Type) : Type :=
  | Ok (a : A)
  | Raise (e : exn).
Arguments Ok {A} a.
Arguments Raise {A} e.

Definition bind {A B} (m : result A) (k : A -> result B) : result B :=
  match m with
  | Ok a => k a
  | Raise e => Raise e
  end.

Definition is_ok {A} (m : result A) : bool :=
  match m with Ok _ => true | Raise _ => false end.

(** [except subprocess.CalledProcessError] *)
Definition is_CalledProcessError (e : exn) : bool :=
  match exn_class e with CalledProcessError => true | _ => false end.

#[global] Instance result_ret : MRet result := @Ok.
#[global] Instance result_bind : MBind result := fun A B k m => bind m k.

End Py.
Import Py.

(** ** Strings the way Python handles them *)

Module Str.

Definition code (c : ascii) : nat := nat_of_ascii c.

(** [str.isspace] on one character (code points below 128). *)
Definition is_space (c : ascii) : bool :=
  let n := code c in
  ((9 <=? n)%nat && (n <=? 13)%nat) || ((28 <=? n)%nat && (n <=? 32)%nat).

Fixpoint lstrip (s : string) : string :=
  match s with
  | EmptyString => EmptyString
  | String c r => if is_space c then lstrip r else s
  end.

Fixpoint rstrip (s : string) : string :=
  match s with
  | EmptyString => EmptyString
  | String c r =>
      match rstrip r with
      | EmptyString => if is_space c then EmptyString else String c EmptyString
      | r' => String c r'
      end
  end.

(** [s.strip()] *)
Definition strip (s : string) : string := rstrip (lstrip s).

(** [s.rstrip(c)] for a one-character [c] *)
Fixpoint rstrip_char (c : ascii) (s : string) : string :=
  match s with
  | EmptyString => EmptyString
  | String a r =>
      match rstrip_char c r with
      | EmptyString => if Ascii.eqb a c then EmptyString else String a EmptyString
      | r' => String a r'
      end
  end.

(** [c in s] for a one-character [c] *)
Fixpoint contains (c : ascii) (s : string) : bool :=
  match s with
  | EmptyString => false
  | String a r => Ascii.eqb a c || contains c r
  end.

(** The text before the first [c] (all of [s] when there is none):
    [s.split(c)[0]]. *)
Fixpoint before (c : ascii) (s : string) : string :=
  match s with
  | EmptyString => EmptyString
  | String a r => if Ascii.eqb a c then EmptyString else String a (before c r)
  end.

(** The text after the first [c] (empty when there is none). *)
Fixpoint after (c : ascii) (s : string) : string :=
  match s with
  | EmptyString => EmptyString
  | String a r => if Ascii.eqb a c then r else after c r
  end.

(** [s.split(c, 1)] when [c in s]: the two pieces. *)
Definition split1 (c : ascii) (s : string) : string * string :=
  (before c s, after c s).

(** [s.startswith(p)] *)
Definition startswith (s p : string) : bool := String.prefix p s.

(** [s.endswith(p)] *)
Fixpoint endswith (s p : string) : bool :=
  String.eqb s p ||
  match s with
  | EmptyString => false
  | String _ r => endswith r p
  end.

(** [s[:n]] and [s[n:]] for [n >= 0] *)
Fixpoint take (n : nat) (s : string) : string :=
  match n, s with
  | O, _ => EmptyString
  | S _, EmptyString => EmptyString
  | S k, String a r => String a (take k r)
  end.

Fixpoint drop (n : nat) (s : string) : string :=
  match n, s with
  | O, _ => s
  | S _, EmptyString => EmptyString
  | S k, String _ r => drop k r
  end.

(** [s.rfind(c)]: the index of the last [c], [-1] when there is none. *)
Fixpoint rfind_from (c : ascii) (s : string) (i : Z) : Z :=
  match s with
  | EmptyString => -1
  | String a r =>
      let k := rfind_from c r (i + 1) in
      if 0 <=? k then k else if Ascii.eqb a c then i else -1
  end.

Definition rfind (c : ascii) (s : string) : Z := rfind_from c s 0.

Fixpoint all_chars (f : ascii -> bool) (s : string) : bool :=
  match s with
  | EmptyString => true
  | String a r => f a && all_chars f r
  end.

(** [ch * n] *)
Fixpoint repeat_char (c : ascii) (n : nat) : string :=
  match n with
  | O => EmptyString
  | S k => String c (repeat_char c k)
  end.

End Str.

(** ** [os.path] (posixpath) *)

Module OsPath.

Definition sep : ascii := "/"%char.
Definition extsep : ascii := "."%char.

(** [os.path.basename(p)]: [p[p.rfind('/')+1:]] *)
Definition basename (p : string) : string :=
  Str.drop (Z.to_nat (Str.rfind sep p + 1)) p.

(** [os.path.dirname(p)] *)
Definition dirname (p : string) : string :=
  let head := Str.take (Z.to_nat (Str.rfind sep p + 1)) p in
  if negb (String.eqb head EmptyString) && negb (Str.all_chars (Ascii.eqb sep) head)
  then Str.rstrip_char sep head
  else head.

(** [os.path.splitext(p)] (genericpath._splitext): split at the last dot of
    the last component, unless that component has nothing but dots before
    it. *)
Definition splitext (p : string) : string * string :=
  let sepIndex := Str.rfind sep p in
  let dotIndex := Str.rfind extsep p in
  if sepIndex <? dotIndex then
    let name_start := Z.to_nat (sepIndex + 1) in
    let before_dot := Str.take (Z.to_nat dotIndex - name_start) (Str.drop name_start p) in
    if Str.all_chars (Ascii.eqb extsep) before_dot
    then (p, EmptyString)
    else (Str.take (Z.to_nat dotIndex) p, Str.drop (Z.to_nat dotIndex) p)
  else (p, EmptyString).

(** [os.path.join(a, b)] *)
Definition join (a b : string) : string :=
  if Str.startswith b "/" then b
  else if String.eqb a EmptyString || Str.endswith a "/" then a ++ b
  else a ++ "/" ++ b.

End OsPath.

(** ** Built-in conversions and arithmetic *)

Module Builtins.

Definition dquote : ascii := "034"%char.
Definition squote : ascii := "039"%char.
Definition backslash : ascii := "092"%char.

Definition hex_digit (n : nat) : ascii :=
  if (n <? 10)%nat then ascii_of_nat (48 + n) else ascii_of_nat (87 + n).

(** One character of [repr(s)] inside the quotes [q]. *)
Definition repr_char (q c : ascii) : string :=
  let n := Str.code c in
  if Ascii.eqb c backslash then String backslash (String backslash EmptyString)
  else if Ascii.eqb c q then String backslash (String q EmptyString)
  else if (n =? 9)%nat then String backslash "t"
  else if (n =? 10)%nat then String backslash "n"
  else if (n =? 13)%nat then String backslash "r"
  else if (n <? 32)%nat || (n =? 127)%nat
       then String backslash (String "x" (String (hex_digit (n / 16))
                                            (String (hex_digit (n mod 16)) EmptyString)))
  else String c EmptyString.

Fixpoint repr_body (q : ascii) (s : string) : string :=
  match s with
  | EmptyString => EmptyString
  | String c r => repr_char q c ++ repr_body q r
  end.

(** [repr(s)]: single quotes, unless [s] has a single quote and no double
    quote. *)
Definition repr (s : string) : string :=
  let q := if Str.contains squote s && negb (Str.contains dquote s)
           then dquote else squote in
  String q (repr_body q s ++ String q EmptyString).

Definition digit_of (c : ascii) : option Z :=
  let n := Str.code c in
  if (48 <=? n)%nat && (n <=? 57)%nat then Some (Z.of_nat (n - 48)) else None.

(** Decimal digits, single underscores allowed between two digits: the
    value and the number of digits read. [prev] tells that the previous
    character was a digit. *)
Fixpoint digits (acc : Z) (count : nat) (prev : bool) (s : string)
  : option (Z * nat) :=
  match s with
  | EmptyString => if prev then Some (acc, count) else None
  | String c r =>
      match digit_of c with
      | Some d => digits (10 * acc + d) (S count) true r
      | None => if Ascii.eqb c "_" && prev then digits acc count false r else None
      end
  end.

(** Optional sign in front of [body]. *)
Definition signed {A} (body : string -> option A) (neg : A -> A) (s : string)
  : option A :=
  match s with
  | String "+" r => body r
  | String "-" r => neg <$> body r
  | _ => body s
  end.

Definition int_literal (s : string) : option Z :=
  signed (fun t => fst <$> digits 0 0 false t) Z.opp s.

(** [int(s)] for a string [s] (the limit on the number of digits is not
    modelled) *)
Definition int (s : string) : result Z :=
  match int_literal (Str.strip s) with
  | Some n => Ok n
  | None =>
      Raise (Exn ValueError ("invalid literal for int() with base 10: " ++ repr s))
  end.

Definition is_exp_mark (c : ascii) : bool := Ascii.eqb c "e" || Ascii.eqb c "E".

Fixpoint before_exp (s : string) : string :=
  match s with
  | EmptyString => EmptyString
  | String a r => if is_exp_mark a then EmptyString else String a (before_exp r)
  end.

Fixpoint after_exp (s : string) : option string :=
  match s with
  | EmptyString => None
  | String a r => if is_exp_mark a then Some r else after_exp r
  end.

Definition pow10 (e : Z) : Q :=
  if 0 <=? e then inject_Z (10 ^ e) else 1 / inject_Z (10 ^ (- e)).

(** The mantissa [ddd], [ddd.], [.ddd] or [ddd.ddd]. *)
Definition mantissa (s : string) : option Q :=
  if Str.contains "." s then
    let ip := Str.before "." s in
    let fp := Str.after "." s in
    match ip, fp with
    | EmptyString, EmptyString => None
    | EmptyString, _ =>
        '(f, k) ← digits 0 0 false fp; Some (inject_Z f * pow10 (- Z.of_nat k))%Q
    | _, EmptyString => '(i, _) ← digits 0 0 false ip; Some (inject_Z i)
    | _, _ =>
        '(i, _) ← digits 0 0 false ip;
        '(f, k) ← digits 0 0 false fp;
        Some (inject_Z i + inject_Z f * pow10 (- Z.of_nat k))%Q
    end
  else '(i, _) ← digits 0 0 false s; Some (inject_Z i).

Definition float_literal (s : string) : option Q :=
  signed (fun t =>
            m ← mantissa (before_exp t);
            match after_exp t with
            | None => Some m
            | Some e => x ← int_literal e; Some (m * pow10 x)%Q
            end) Qopp s.

(** [float(s)] for a string [s] that denotes a finite number; the literals
    of infinity and NaN have no rational value and are not modelled. *)
Definition float (s : string) : result Q :=
  match float_literal (Str.strip s) with
  | Some q => Ok q
  | None =>
      Raise (Exn ValueError ("could not convert string to float: " ++ repr s))
  end.

(** [max(a, b)] and [min(a, b)]: the first argument unless the second is
    strictly beyond it. *)
Definition max (a b : Q) : Q :=
  match Qcompare a b with Lt => b | _ => a end.

Definition min (a b : Q) : Q :=
  match Qcompare b a with Lt => b | _ => a end.

(** [a / b] *)
Definition truediv (a b : Q) : result Q :=
  if Qeq_bool b 0 then Raise (Exn ZeroDivisionError "division by zero")
  else Ok (a / b)%Q.

(** [str(n)] for an integer *)
Definition str_int (n : Z) : string :=
  DecimalString.NilZero.string_of_int (Z.to_int n).

(** Rounding to the nearest integer, ties to even. *)
Definition round_half_even (q : Q) : Z :=
  let f := Qfloor q in
  match Qcompare (q - inject_Z f) (1 # 2) with
  | Lt => f
  | Gt => f + 1
  | Eq => if Z.even f then f else f + 1
  end.

(** [f"{q:.{d}f}"]: the exact value rounded to [d] decimals, with the sign
    of [q]. *)
Definition format_fixed (d : nat) (q : Q) : string :=
  let scale := 10 ^ Z.of_nat d in
  let n := round_half_even (q * inject_Z scale) in
  let a := Z.abs n in
  let frac := str_int (a mod scale) in
  let sign := match Qcompare q 0 with Lt => "-" | _ => "" end in
  let ipart := str_int (a / scale) in
  match d with
  | O => sign ++ ipart
  | _ => sign ++ ipart ++ "." ++
         Str.repeat_char "0" (d - String.length frac) ++ frac
  end.

End Builtins.

(** ** The environment *)

(** What a finished [subprocess.Popen] gave: the lines read from its
    standard output, its exit code and the text of its standard error. *)
Record Proc : Type := {
  stdout : list string;
  returncode : Z;
  stderr : string
}.

(** The answers of the environment; they do not change during one run. *)
Record World : Type := {
  which : string -> bool;                       (* shutil.which(name) is not None *)
  check_output : list string -> result string;  (* subprocess.check_output(cmd, text=True) *)
  getsize : string -> result Z;                 (* os.path.getsize *)
  Popen : list string -> result Proc;           (* subprocess.Popen, then the process runs *)
  listdir : string -> result (list string);     (* os.listdir *)
  time : Q;                                     (* time() *)
  uuid4_hex : nat -> string                     (* the n-th uuid.uuid4().hex *)
}.

(** [app.config] *)
Record Config : Type := {
  UPLOAD_DIR : string;
  OUTPUT_DIR : string
}.

(** ** The job record and the registry *)

Inductive Status : Type := Queued | Running | Done | Error.

Definition Status_eqb (a b : Status) : bool :=
  match a, b with
  | Queued, Queued | Running, Running | Done, Done | Error, Error => true
  | _, _ => false
  end.

(** [status in ("done", "error")] *)
Definition is_terminal (s : Status) : bool :=
  match s with Done | Error => true | _ => false end.

Record Job : Type := {
  status : Status;
  pct : Q;
  msg : string;
  started : Q;
  finished : option Q;
  input_path : string;
  out_pattern : string;
  parts : list string
}.

Definition set_status (v : Status) (j : Job) : Job :=
  {| status := v; pct := pct j; msg := msg j; started := started j;
     finished := finished j; input_path := input_path j;
     out_pattern := out_pattern j; parts := parts j |}.

Definition set_pct (v : Q) (j : Job) : Job :=
  {| status := status j; pct := v; msg := msg j; started := started j;
     finished := finished j; input_path := input_path j;
     out_pattern := out_pattern j; parts := parts j |}.

Definition set_msg (v : string) (j : Job) : Job :=
  {| status := status j; pct := pct j; msg := v; started := started j;
     finished := finished j; input_path := input_path j;
     out_pattern := out_pattern j; parts := parts j |}.

Definition set_finished (v : Q) (j : Job) : Job :=
  {| status := status j; pct := pct j; msg := msg j; started := started j;
     finished := Some v; input_path := input_path j;
     out_pattern := out_pattern j; parts := parts j |}.

Definition set_out_pattern (v : string) (j : Job) : Job :=
  {| status := status j; pct := pct j; msg := msg j; started := started j;
     finished := finished j; input_path := input_path j;
     out_pattern := v; parts := parts j |}.

Definition set_parts (v : list string) (j : Job) : Job :=
  {| status := status j; pct := pct j; msg := msg j; started := started j;
     finished := finished j; input_path := input_path j;
     out_pattern := out_pattern j; parts := v |}.

(** [JOBS]: job id to record. *)
Abbreviation Registry := (gmap string Job).

(** ** The worker's monad: one shared record, every write logged *)

Module Worker.

(** A step of the worker starts from the current value of the record and
    gives the record's value after each of its writes, in order, and a
    result. *)
Definition W (A : Type) : Type := Job -> list Job * result A.

Definition current (j : Job) (log : list Job) : Job := List.last log j.

Definition ret {A} (a : A) : W A := fun _ => ([], Ok a).

Definition bind {A B} (m : W A) (k : A -> W B) : W B :=
  fun j =>
    let '(l1, r) := m j in
    match r with
    | Ok a => let '(l2, r2) := k a (current j l1) in ((l1 ++ l2)%list, r2)
    | Raise e => (l1, Raise e)
    end.

(** A pure computation that may raise. *)
Definition lift {A} (r : result A) : W A := fun _ => ([], r).

(** [j[field] = v] *)
Definition write (f : Job -> Job) : W unit := fun j => ([f j], Ok tt).

(** [try: m  except Exception as e: h e] *)
Definition try_except {A} (m : W A) (h : exn -> W A) : W A :=
  fun j =>
    let '(l1, r) := m j in
    match r with
    | Ok a => (l1, Ok a)
    | Raise e => let '(l2, r2) := h e (current j l1) in ((l1 ++ l2)%list, r2)
    end.

(** [for x in xs: body x] *)
Fixpoint for_each {X} (xs : list X) (body : X -> W unit) : W unit :=
  match xs with
  | [] => ret tt
  | x :: rest => bind (body x) (fun _ => for_each rest body)
  end.

(** The record's successive values in a run from [j]: [j] first. *)
Definition history {A} (m : W A) (j : Job) : list Job := j :: fst (m j).

(** The record when the run is over. *)
Definition final {A} (m : W A) (j : Job) : Job := current j (fst (m j)).

End Worker.
Import Worker.

Arguments Worker.current : simpl never.

Notation "x <~ m ;; k" := (Worker.bind m (fun x => k))
  (at level 100, m at next level, right associativity, only parsing).
Notation "m ;;; k" := (Worker.bind m (fun _ => k))
  (at level 100, right associativity, only parsing).

(** ** app.py *)

Module App.

(** [1e-6] *)
Definition eps : Q := 1 # 1000000.

Definition require_tools (w : World) : result unit :=
  if negb (which w "ffmpeg") || negb (which w "ffprobe")
  then Raise (Exn RuntimeError "ffmpeg and ffprobe must be on PATH")
  else Ok tt.

Definition ffprobe_cmd (entry path : string) : list string :=
  ["ffprobe"; "-v"; "error"; "-show_entries"; entry;
   "-of"; "default=nw=1:nk=1"; path].

Definition ffprobe_duration (w : World) (path : string) : result Q :=
  out ← check_output w (ffprobe_cmd "format=duration" path);
  Builtins.float (Str.strip out).

(** Lines 45-47: the bitrate from the size and the duration; the divisor is
    at least [1e-6]. *)
Definition calc_bitrate (w : World) (path : string) : result Q :=
  dur ← ffprobe_duration w path;
  size ← getsize w path;
  Ok (inject_Z (size * 8) / Builtins.max dur eps)%Q.

(** Lines 34-44: [Ok (Some br)] is [return br]; [Ok None] falls out of the
    [try]; only [CalledProcessError] is caught. *)
Definition declared_bitrate (w : World) (path : string) : result (option Z) :=
  let attempt :=
    br ← check_output w (ffprobe_cmd "format=bit_rate" path);
    br ← Builtins.int (Str.strip br);
    if 0 <? br then Ok (Some br) else Ok None in
  match attempt with
  | Ok r => Ok r
  | Raise e => if is_CalledProcessError e then Ok None else Raise e
  end.

Definition ffprobe_bitrate_or_calc (w : World) (path : string) : result Q :=
  declared ← declared_bitrate w path;
  match declared with
  | Some br => Ok (inject_Z br)
  | None => calc_bitrate w path
  end.

Definition estimate_seg_time_secs (w : World) (path : string) (chunk_mb : Z)
  : result Q :=
  bitrate ← ffprobe_bitrate_or_calc w path;
  let target_bits := chunk_mb * 1024 * 1024 * 8 in
  q ← Builtins.truediv (inject_Z target_bits) bitrate;
  Ok (Builtins.max 1 q).

(** Lines 57-58, the body of the first [try]. *)
Definition metadata (w : World) (input_path : string) (chunk_mb : Z)
  : result (Q * Q) :=
  dur ← ffprobe_duration w input_path;
  seg_time ← estimate_seg_time_secs w input_path chunk_mb;
  Ok (dur, seg_time).

(** [x or ".mp4"] and the like: the first string unless it is empty. *)
Definition str_or (a b : string) : string :=
  if String.eqb a EmptyString then b else a.

(** Lines 67-69. [pattern] is [None] or a string; both [None] and the empty
    string are false. *)
Definition derive_out_pattern (cfg : Config) (input_path : string)
    (pattern : option string) : string :=
  let base := fst (OsPath.splitext (OsPath.basename input_path)) in
  let ext := str_or (snd (OsPath.splitext input_path)) ".mp4" in
  match pattern with
  | Some p => str_or p (OsPath.join (OUTPUT_DIR cfg) (base ++ "_part%03d" ++ ext))
  | None => OsPath.join (OUTPUT_DIR cfg) (base ++ "_part%03d" ++ ext)
  end.

Definition ffmpeg_cmd (input_path : string) (seg_time : Q) (out_pattern : string)
  : list string :=
  ["ffmpeg"; "-hide_banner"; "-nostats"; "-loglevel"; "error";
   "-i"; input_path;
   "-c"; "copy"; "-map"; "0";
   "-f"; "segment";
   "-segment_time"; Builtins.format_fixed 3 seg_time;
   "-reset_timestamps"; "1";
   "-progress"; "pipe:1";
   out_pattern].

(** Lines 90-98: the body of the loop over the progress lines. The divisor
    [max(dur, 1e-6)] is positive. *)
Definition handle_line (dur : Q) (line : string) : W unit :=
  let line := Str.strip line in
  if negb (Str.contains "=" line) then Worker.ret tt
  else
    let '(k, v) := Str.split1 "=" line in
    if String.eqb k "out_time_ms" then
      n <~ lift (Builtins.int v) ;;
      let out_s := (inject_Z n / 1000000)%Q in
      write (set_pct (Builtins.min 1 (out_s / Builtins.max dur eps)))
    else if String.eqb k "progress" && String.eqb v "end" then
      write (set_pct 1)
    else Worker.ret tt.

(** [sorted(names)]: a merge sort by [<=] on strings, the order of the code
    points. *)
Definition sorted (l : list string) : list string := merge_sort String.le l.

(** Lines 107-111: the names the listing keeps. *)
Definition produced_files (out_pattern ext : string) (names : list string)
  : list string :=
  let prefix := Str.before "%" (OsPath.basename out_pattern) in
  sorted (List.filter (fun f => Str.startswith f prefix && Str.endswith f ext) names).

(** Lines 87-116, the second [try] with its handler. *)
Definition split_and_collect (w : World) (dur : Q) (ext out_pattern : string)
    (cmd : list string) : W unit :=
  try_except
    (proc <~ lift (Popen w cmd) ;;
     for_each (stdout proc) (handle_line dur) ;;;
     let ret := returncode proc in
     (if negb (ret =? 0) then
        write (set_status Error) ;;;
        write (set_msg (str_or (stderr proc) ("ffmpeg exited " ++ Builtins.str_int ret)))
      else
        write (set_status Done) ;;;
        write (set_msg "Completed") ;;;
        let dirpath := str_or (OsPath.dirname out_pattern) "." in
        names <~ lift (listdir w dirpath) ;;
        write (set_parts (produced_files out_pattern ext names))) ;;;
     write (set_finished (time w)))
    (fun e =>
       write (set_status Error) ;;;
       write (set_msg (exn_text e)) ;;;
       write (set_finished (time w))).

(** [run_job], on the record [JOBS[job_id]] refers to. [require_tools] is
    outside every [try]: when it raises, the thread ends and nothing is
    written. In [math.ceil(dur/seg_time)] the divisor is at least 1. *)
Definition run_job (w : World) (cfg : Config) (input_path : string)
    (chunk_mb : Z) (pattern : option string) : W unit :=
  lift (require_tools w) ;;;
  match metadata w input_path chunk_mb with
  | Raise e =>
      write (set_status Error) ;;;
      write (set_msg ("Metadata error: " ++ exn_text e)) ;;;
      write (set_pct 0) ;;;
      write (set_finished (time w))
  | Ok (dur, seg_time) =>
      let ext := str_or (snd (OsPath.splitext input_path)) ".mp4" in
      let out_pattern := derive_out_pattern cfg input_path pattern in
      write (set_status Running) ;;;
      write (set_msg ("~" ++ Builtins.str_int (Qceiling (dur / seg_time))
                          ++ " parts @ " ++ Builtins.format_fixed 2 seg_time
                          ++ "s/part")) ;;;
      write (set_out_pattern out_pattern) ;;;
      split_and_collect w dur ext out_pattern
        (ffmpeg_cmd input_path seg_time out_pattern)
  end.

(** *** The routes *)

(** An uploaded file: [file.filename] and its content. *)
Record Upload : Type := {
  filename : string;
  content : string
}.

Record Request : Type := {
  form : gmap string string;
  files : gmap string Upload
}.

(** What a route does besides answering: the file it saved and the thread
    it started, with the thread's arguments. *)
Record Effects : Type := {
  saved : option (string * Upload);
  thread : option (string * string * Z * option string)
}.

Definition no_effects : Effects := {| saved := None; thread := None |}.

(** [abort(code, description)] *)
Definition abort {A} (code : Z) (description : string) : result A :=
  Raise (Exn (HTTPException code) description).

(** The record [start] stores. *)
Definition new_job (w : World) (input_path : string) (pattern : option string)
  : Job :=
  {| status := Queued; pct := 0; msg := ""; started := time w;
     finished := None; input_path := input_path;
     out_pattern := default "" pattern; parts := [] |}.

(** [start]: the registry afterwards, the effects, and the response (the
    job id the redirect carries) or the exception [abort] raised. *)
Definition start (w : World) (cfg : Config) (JOBS : Registry) (request : Request)
  : Registry * Effects * result string :=
  let file := files request !! "file" in
  let validated :=
    chunk_mb ← Builtins.int (default "0" (form request !! "chunk_mb"));
    if 0 <? chunk_mb then Ok chunk_mb
    else Raise (Exn AssertionError "") in
  match validated with
  | Raise _ => (JOBS, no_effects, abort 400 "chunk_mb must be a positive integer")
  | Ok chunk_mb =>
      let stripped := Str.strip (default "" (form request !! "pattern")) in
      let pattern := if String.eqb stripped "" then None else Some stripped in
      match file with
      | Some f =>
          if negb (String.eqb (filename f) "") then
            let up_name := uuid4_hex w 0 ++ "_" ++ OsPath.basename (filename f) in
            let dest := OsPath.join (UPLOAD_DIR cfg) up_name in
            let input_path := dest in
            let job_id := uuid4_hex w 1 in
            (<[job_id := new_job w input_path pattern]> JOBS,
             {| saved := Some (dest, f);
                thread := Some (job_id, input_path, chunk_mb, pattern) |},
             Ok job_id)
          else (JOBS, no_effects, abort 400 "Please upload a file")
      | None => (JOBS, no_effects, abort 400 "Please upload a file")
      end
  end.

(** The payload of one event of the progress stream. *)
Record Payload : Type := {
  p_status : Status;
  p_pct : Q;
  p_msg : string;
  p_files : list string
}.

(** The moments at which one round of the generator reads the shared
    record: the four reads that build the payload (the status is read once
    for the payload and once to decide whether to list the files), and the
    read of the status after the [yield]. *)
Record Reads : Type := {
  t_status : nat;
  t_pct : nat;
  t_msg : nat;
  t_cond : nat;
  t_parts : nat;
  t_break : nat
}.

(** One round of [gen] against the record's history [h] (the record's value
    at each moment): the payload it yields, and whether it breaks. *)
Definition gen_round (h : nat -> Job) (r : Reads) : Payload * bool :=
  let payload :=
    {| p_status := status (h (t_status r));
       p_pct := pct (h (t_pct r));
       p_msg := msg (h (t_msg r));
       p_files := if is_terminal (status (h (t_cond r)))
                  then parts (h (t_parts r)) else [] |} in
  (payload, is_terminal (status (h (t_break r)))).

(** [gen()], for as many rounds as the schedule has: the payloads yielded,
    and whether the generator has returned. [JOBS.get(job_id)] gives the
    same record at every round (nothing removes or replaces an entry), so
    [if not j: break] is never taken; the sleep between two rounds is the
    distance between their reads. *)
Fixpoint gen (h : nat -> Job) (schedule : list Reads) : list Payload * bool :=
  match schedule with
  | [] => ([], false)
  | r :: rest =>
      let '(payload, stop) := gen_round h r in
      if stop then ([payload], true)
      else let '(more, returned) := gen h rest in (payload :: more, returned)
  end.

(** [progress_stream]: 404 for an unknown job, the generator otherwise. *)
Definition progress_stream (JOBS : Registry) (job_id : string) (h : nat -> Job)
    (schedule : list Reads) : result (list Payload * bool) :=
  match JOBS !! job_id with
  | None => abort 404 ""
  | Some _ => Ok (gen h schedule)
  end.

(** [job]: the record the page is rendered from, or 404. A record is a
    non-empty dict, so [if not job] tells only whether the id is known. *)
Definition job (JOBS : Registry) (job_id : string) : result Job :=
  match JOBS !! job_id with
  | Some j => Ok j
  | None => abort 404 ""
  end.

(** [download]: the directory and the name handed to
    [send_from_directory], or 404. [isfile] is [os.path.isfile] and [args]
    is [request.args]. *)
Definition download (cfg : Config) (isfile : string -> bool) (JOBS : Registry)
    (args : gmap string string) (job_id : string) : result (string * string) :=
  match JOBS !! job_id with
  | None => abort 404 ""
  | Some j =>
      if negb (Status_eqb (status j) Done) then abort 404 ""
      else
        let f := default "" (args !! "f") in
        let dirpath := str_or (OsPath.dirname (out_pattern j)) (OUTPUT_DIR cfg) in
        let fpath := OsPath.join dirpath f in
        if negb (isfile fpath) then abort 404 ""
        else Ok (dirpath, f)
  end.

End App.

(** ** slice.py *)

Module Slice.

Definition ffprobe_value (w : World) (path key : string) : result string :=
  out ← check_output w
    ["ffprobe"; "-v"; "error"; "-show_entries"; key;
     "-of"; "default=nw=1:nk=1"; path];
  Ok (Str.strip out).

(** Lines 22-34: the container's bitrate, else size over duration. *)
Definition bit_rate (w : World) (input_file : string) : result Q :=
  let attempt :=
    bit_rate_str ← ffprobe_value w input_file "format=bit_rate";
    if String.eqb bit_rate_str "" then Ok 0 else Builtins.int bit_rate_str in
  declared ← match attempt with
             | Ok b => Ok b
             | Raise e => if is_CalledProcessError e then Ok 0 else Raise e
             end;
  if declared <=? 0 then
    dur_str ← ffprobe_value w input_file "format=duration";
    dur ← Builtins.float dur_str;
    size_str ← ffprobe_value w input_file "format=size";
    size_bytes ← Builtins.int size_str;
    if Qle_bool dur 0
    then Raise (Exn RuntimeError "Could not determine duration.")
    else Builtins.truediv (inject_Z (size_bytes * 8)) dur
  else Ok (inject_Z declared).

Definition compute_segment_time_secs (w : World) (input_file : string)
    (chunk_mb : Z) : result Q :=
  bit_rate ← bit_rate w input_file;
  let target_bits := chunk_mb * 1024 * 1024 * 8 in
  seg_time ← Builtins.truediv (inject_Z target_bits) bit_rate;
  Ok (Builtins.max 1 seg_time).

(** Lines 58-59 of [main]. *)
Definition default_out_pattern (input_file : string) (output_pattern : option string)
  : string :=
  let '(base, ext) := OsPath.splitext input_file in
  let derived := base ++ "_part%03d" ++ App.str_or ext ".mp4" in
  match output_pattern with
  | Some p => App.str_or p derived
  | None => derived
  end.

(** [cmd_ok] *)
Definition cmd_ok (w : World) (name : string) : bool := which w name.

(** The parsed command line. *)
Record Args : Type := {
  input_file : string;
  chunk_mb : Z;
  output_pattern : option string
}.

(** What [main] leaves behind: the argument of [sys.exit] (0 when [main]
    returns), the line printed on the standard error, and the command
    handed to [subprocess.check_call]. *)
Record Outcome : Type := {
  exit_code : Z;
  message : option string;
  command : option (list string)
}.

(** Lines 68-76. *)
Definition ffmpeg_cmd (input_file : string) (seg_time : Q) (out_pattern : string)
  : list string :=
  ["ffmpeg"; "-hide_banner"; "-loglevel"; "error";
   "-i"; input_file;
   "-c"; "copy"; "-map"; "0";
   "-f"; "segment";
   "-segment_time"; Builtins.format_fixed 3 seg_time;
   "-reset_timestamps"; "1";
   out_pattern].

(** [main], after [parse_args]. [isfile] is [os.path.isfile];
    [check_call cmd] is the exit code of the command, and
    [subprocess.check_call] raises [CalledProcessError] with that code when
    it is not 0. *)
Definition main (w : World) (isfile : string -> bool)
    (check_call : list string -> Z) (args : Args) : Outcome :=
  if negb (cmd_ok w "ffmpeg") || negb (cmd_ok w "ffprobe") then
    {| exit_code := 1;
       message := Some "ffmpeg and ffprobe are required on PATH.";
       command := None |}
  else if negb (isfile (input_file args)) then
    {| exit_code := 1; message := Some "Input file not found."; command := None |}
  else
    let out_pattern := default_out_pattern (input_file args) (output_pattern args) in
    match compute_segment_time_secs w (input_file args) (chunk_mb args) with
    | Raise e =>
        {| exit_code := 1;
           message := Some ("Failed to estimate segment time: " ++ exn_text e);
           command := None |}
    | Ok seg_time =>
        let cmd := ffmpeg_cmd (input_file args) seg_time out_pattern in
        let returncode := check_call cmd in
        if returncode =? 0 then
          {| exit_code := 0; message := None; command := Some cmd |}
        else
          {| exit_code := returncode;
             message := Some ("ffmpeg failed with exit code "
                              ++ Builtins.str_int returncode);
             command := Some cmd |}
    end.

End Slice.



(** ** Vocabulary of the properties *)

Module Spec.

(** *** Runs of the worker *)

(** Every write of a log moves the record along [R], starting from [j]. *)
Fixpoint chain (R : Job -> Job -> Prop) (j : Job) (log : list Job) : Prop :=
  match log with
  | [] => True
  | x :: rest => R j x /\ chain R x rest
  end.

(** From a record satisfying [P], the step [m] moves the record along [R]
    only, and ends with a result and a record related by [Q]. *)
Definition triple {A} (R : Job -> Job -> Prop) (P : Job -> Prop) (m : W A)
    (Q : result A -> Job -> Prop) : Prop :=
  forall j, P j ->
    chain R j (fst (m j)) /\ Q (snd (m j)) (Worker.current j (fst (m j))).

(** The record at the moment [t] of a run: the [t]-th value of its history,
    and the last one from then on. *)
Definition record_at {A} (m : W A) (j : Job) (t : nat) : Job :=
  List.nth t (Worker.history m j) (Worker.final m j).

Fixpoint adjacent {A} (R : A -> A -> bool) (l : list A) : bool :=
  match l with
  | a :: (b :: _) as rest => R a b && adjacent R rest
  | _ => true
  end.

(** *** The state machine *)

(** The moves the specification names: queued to running, running to done
    or to error (and staying). *)
Definition claimed_move (a b : Status) : bool :=
  Status_eqb a b ||
  match a, b with
  | Queued, Running | Running, Done | Running, Error => true
  | _, _ => false
  end.

(** The moves of the worker: the same, and queued to error. *)
Definition move (a b : Status) : bool :=
  claimed_move a b ||
  match a, b with
  | Queued, Error => true
  | _, _ => false
  end.

(** One write of the worker, seen on the state. *)
Definition moves (a b : Job) : Prop := move (status a) (status b) = true.

(** *** The progress stream of the splitter *)

Inductive Event : Type :=
  | Skipped
  | OutTime (n : Z)
  | BadOutTime (v : string)
  | ProgressEnd.

(** What a progress line says, after [strip] and [split("=", 1)]. *)
Definition classify (line : string) : Event :=
  let line := Str.strip line in
  if negb (Str.contains "=" line) then Skipped
  else
    let '(k, v) := Str.split1 "=" line in
    if String.eqb k "out_time_ms" then
      match Builtins.int v with
      | Ok n => OutTime n
      | Raise _ => BadOutTime v
      end
    else if String.eqb k "progress" && String.eqb v "end" then ProgressEnd
    else Skipped.



(** The progress fraction of a reported time, as the worker computes it. *)
Definition fraction (dur : Q) (n : Z) : Q :=
  Builtins.min 1 ((inject_Z n / 1000000) / Builtins.max dur App.eps)%Q.





(** A directory prefix: empty, or ending with the separator. *)
Definition is_dir_prefix (dir : string) : Prop :=
  dir = "" \/ exists d, dir = d ++ "/".


(** No constraint on a write. *)
Definition any_write (_ _ : Job) : Prop := True.







(** *** The produced files *)








(** *** The progress stream of the server *)

(** A round of the generator that makes all its reads at one moment. *)
Definition all_at (t : nat) : App.Reads :=
  {| App.t_status := t; App.t_pct := t; App.t_msg := t;
     App.t_cond := t; App.t_parts := t; App.t_break := t |}.

(** The payload of a record read at once. *)
Definition snapshot (j : Job) : App.Payload :=
  {| App.p_status := status j; App.p_pct := pct j; App.p_msg := msg j;
     App.p_files := if is_terminal (status j) then parts j else [] |}.

(** The moments up to the first one at which the record is terminal. *)
Fixpoint upto_terminal (h : nat -> Job) (ts : list nat) : list nat :=
  match ts with
  | [] => []
  | t :: rest => if is_terminal (status (h t)) then [t] else t :: upto_terminal h rest
  end.

(** The reads of a round are in program order. *)
Definition round_in_order (r : App.Reads) : bool :=
  (App.t_status r <=? App.t_pct r)%nat && (App.t_pct r <=? App.t_msg r)%nat &&
  (App.t_msg r <=? App.t_cond r)%nat && (App.t_cond r <=? App.t_parts r)%nat &&
  (App.t_parts r <=? App.t_break r)%nat.

(** The rounds follow each other in time. *)
Definition in_order (schedule : list App.Reads) : bool :=
  forallb round_in_order schedule &&
  adjacent (fun a b => (App.t_break a <=? App.t_status b)%nat) schedule.

(** A write that leaves alone what identifies the job: its input and the
    time of its submission. *)
Definition keeps_identity (a b : Job) : Prop :=
  input_path b = input_path a /\ started b = started a.

(** What a record that is done tells about the run behind it. *)
Definition clean_exit (w : World) (cfg : Config) (input_path : string)
    (chunk_mb : Z) (pattern : option string) (j : Job) : Prop :=
  exists dur seg_time proc names,
    let out := App.derive_out_pattern cfg input_path pattern in
    App.metadata w input_path chunk_mb = Ok (dur, seg_time) /\
    Popen w (App.ffmpeg_cmd input_path seg_time out) = Ok proc /\
    returncode proc = 0 /\
    listdir w (App.str_or (OsPath.dirname out) ".") = Ok names /\
    parts j = App.produced_files out
                (App.str_or (snd (OsPath.splitext input_path)) ".mp4") names /\
    msg j = "Completed".

(** Two records that differ at most in their progress. *)
Definition same_but_pct (a b : Job) : Prop :=
  status b = status a /\ msg b = msg a /\ started b = started a /\
  finished b = finished a /\ input_path b = input_path a /\
  out_pattern b = out_pattern a /\ parts b = parts a.

End Spec.

(** ** Concrete environments, to run the definitions on *)

Module Samples.

Definition newline : string := String "010"%char EmptyString.

(** A world in which both tools are installed, ffprobe answers the three
    format queries as given, ffmpeg behaves as [proc] and the output
    directory lists [names]. *)
Definition world (bit_rate duration : result string) (size : result Z)
    (proc : result Proc) (names : result (list string)) : World :=
  {| which := fun _ => true;
     check_output := fun cmd =>
       match cmd with
       | [_; _; _; _; entry; _; _; _] =>
           if String.eqb entry "format=bit_rate" then bit_rate
           else if String.eqb entry "format=duration" then duration
           else if String.eqb entry "format=size"
                then (n ← size; Ok (Builtins.str_int n ++ newline))
           else Raise (Exn CalledProcessError "unknown entry")
       | _ => Raise (Exn CalledProcessError "not ffprobe")
       end;
     getsize := fun _ => size;
     Popen := fun _ => proc;
     listdir := fun _ => names;
     time := 1700000000;
     uuid4_hex := fun n => if (n =? 0)%nat then "aaaa" else "bbbb" |}.

Definition cfg : Config := {| UPLOAD_DIR := "/srv/uploads"; OUTPUT_DIR := "/srv/outputs" |}.

Definition failed (msg : string) : exn := Exn CalledProcessError msg.

Definition ffmpeg_ok (lines : list string) : Proc :=
  {| stdout := lines; returncode := 0; stderr := "" |}.

Definition clip : string := "/srv/uploads/aaaa_clip.mp4".

Definition job0 (w : World) : Job := App.new_job w clip None.

(** A two-minute clip of 4 Mbit/s, split by a process that writes [lines]
    and exits with 0, leaving two parts and an unrelated file. *)
Definition splitting (lines : list string) : World :=
  world (Ok ("4000000" ++ newline)) (Ok ("120.000000" ++ newline)) (Ok 60000000)
        (Ok (ffmpeg_ok lines))
        (Ok ["aaaa_clip_part001.mp4"; "aaaa_clip_part000.mp4"; "other.mp4"]).

Definition healthy : World :=
  splitting ["frame=10"; "out_time_ms=60000000"; "progress=continue";
             "out_time_ms=120000000"; "progress=end"].




(** ffprobe fails on the duration. *)
Definition no_duration : World :=
  world (Ok ("4000000" ++ newline)) (Raise (failed "ffprobe returned non-zero exit status 1"))
        (Ok 60000000) (Ok (ffmpeg_ok [])) (Ok []).


(** The splitter exits with 0 and the output directory cannot be read. *)
Definition unlistable : World :=
  world (Ok ("4000000" ++ newline)) (Ok ("120.000000" ++ newline)) (Ok 60000000)
        (Ok (ffmpeg_ok ["out_time_ms=120000000"; "progress=end"]))
        (Raise (Exn OSError "[Errno 13] Permission denied: '/srv/outputs'")).


(** ffprobe prints [text] for the bitrate of a 10 s file of 1000 bytes. *)
Definition bitrate_says (text : string) : World :=
  world (Ok (text ++ newline)) (Ok ("10.000000" ++ newline)) (Ok 1000)
        (Ok (ffmpeg_ok [])) (Ok []).

(** A submission of [clip.mp4] with the given form fields. *)
Definition submission (fields : list (string * string)) : App.Request :=
  {| App.form := list_to_map fields;
     App.files := {[ "file" := {| App.filename := "clip.mp4"; App.content := "" |} ]} |}.

(** A registry with one finished job. *)
Definition one_job : Registry :=
  {[ "cccc" := set_status Done (job0 healthy) ]}.




(** The shared record of the healthy run, moment by moment: queued at 0,
    running from 1, done from 7, its parts listed from 9. *)
Definition healthy_record : nat -> Job :=
  Spec.record_at (App.run_job healthy cfg clip 5 None) (job0 healthy).

(** A reader that polls while the record is done and its parts are not yet
    listed. *)
Definition early_poll : list App.Reads := [Spec.all_at 4; Spec.all_at 7].

(** A reader whose payload is built while the record is running and whose
    test after the [yield] comes when it is done. *)
Definition late_test : list App.Reads :=
  [{| App.t_status := 6; App.t_pct := 6; App.t_msg := 6;
      App.t_cond := 6; App.t_parts := 6; App.t_break := 10 |}].

(** ffmpeg is not installed. *)
Definition no_ffmpeg : World :=
  {| which := fun name => negb (String.eqb name "ffmpeg");
     check_output := check_output healthy;
     getsize := getsize healthy;
     Popen := Popen healthy;
     listdir := listdir healthy;
     time := time healthy;
     uuid4_hex := uuid4_hex healthy |}.




(** A file whose duration reads as zero, of 1000 bytes, with no positive
    declared bitrate. *)
Definition zero_duration : World :=
  world (Ok ("0" ++ newline)) (Ok ("0.000000" ++ newline)) (Ok 1000)
        (Ok (ffmpeg_ok [])) (Ok []).

Definition run (w : World) : list Job :=
  Worker.history (App.run_job w cfg clip 5 None) (job0 w).

End Samples.

(** * Properties *)

(** ** Arithmetic of [max] and [min] *)

Section MinMax.

Local Open Scope Q_scope.

Lemma max_is_Qmax (a b : Q) : Builtins.max a b == Qmax a b.
Proof.
  unfold Builtins.max. destruct (Qcompare a b) eqn:E.
  - apply Qeq_alt in E. rewrite E. symmetry. apply Q.max_id.
  - apply Qlt_alt in E. symmetry. apply Q.max_r. now apply Qlt_le_weak.
  - apply Qgt_alt in E. symmetry. apply Q.max_l. now apply Qlt_le_weak.
Qed.

Lemma min_is_Qmin (a b : Q) : Builtins.min a b == Qmin a b.
Proof.
  unfold Builtins.min. destruct (Qcompare b a) eqn:E.
  - apply Qeq_alt in E. rewrite E. symmetry. apply Q.min_id.
  - apply Qlt_alt in E. symmetry. apply Q.min_r. now apply Qlt_le_weak.
  - apply Qgt_alt in E. symmetry. apply Q.min_l. now apply Qlt_le_weak.
Qed.

Lemma max_ge_l (a b : Q) : a <= Builtins.max a b.
Proof. rewrite max_is_Qmax. apply Q.le_max_l. Qed.



Lemma min_le_r (a b : Q) : Builtins.min a b <= b.
Proof. rewrite min_is_Qmin. apply Q.le_min_r. Qed.




End MinMax.

(** ** The segment-time estimator *)


(** ** Rules for runs of the worker *)

Section Rules.

Import Spec.

Variable R : Job -> Job -> Prop.

Lemma current_cons (j x : Job) (l : list Job) :
  Worker.current j (x :: l) = Worker.current x l.
Proof.
  unfold Worker.current. revert j x. induction l as [|y l IH]; intros j x; [reflexivity|].
  change (List.last (x :: y :: l) j) with (List.last (y :: l) j).
  now rewrite (IH j y), (IH x y).
Qed.

Lemma current_app (j : Job) (l1 l2 : list Job) :
  Worker.current j (l1 ++ l2) = Worker.current (Worker.current j l1) l2.
Proof.
  revert j. induction l1 as [|x l1 IH]; intros j; [reflexivity|].
  rewrite <- app_comm_cons, !current_cons. apply IH.
Qed.

Lemma chain_app (j : Job) (l1 l2 : list Job) :
  chain R j l1 -> chain R (Worker.current j l1) l2 -> chain R j (l1 ++ l2).
Proof.
  revert j. induction l1 as [|x l1 IH]; intros j H1 H2; [exact H2|].
  destruct H1 as [Hx H1]. rewrite current_cons in H2.
  split; [exact Hx|]. now apply IH.
Qed.

Lemma chain_Sorted (j : Job) (l : list Job) : chain R j l -> Sorted R (j :: l).
Proof.
  revert j. induction l as [|x l IH]; intros j H.
  - repeat constructor.
  - destruct H as [Hx H]. constructor; [now apply IH|now constructor].
Qed.

Lemma triple_ret {A} (P : Job -> Prop) (a : A) :
  triple R P (Worker.ret a) (fun r j => r = Ok a /\ P j).
Proof. intros j H. cbn. auto. Qed.

Lemma triple_lift {A} (P : Job -> Prop) (r : result A) :
  triple R P (lift r) (fun r' j => r' = r /\ P j).
Proof. intros j H. cbn. auto. Qed.

Lemma triple_write (P Q : Job -> Prop) (f : Job -> Job) :
  (forall j, P j -> R j (f j) /\ Q (f j)) ->
  triple R P (write f) (fun r j => r = Ok tt /\ Q j).
Proof. intros H j Hj. destruct (H j Hj). cbn. auto. Qed.

Lemma triple_bind {A B} (P : Job -> Prop) (Q1 : result A -> Job -> Prop)
    (Q : result B -> Job -> Prop) (m : W A) (k : A -> W B) :
  triple R P m Q1 ->
  (forall a, triple R (Q1 (Ok a)) (k a) Q) ->
  (forall e j, Q1 (Raise e) j -> Q (Raise e) j) ->
  triple R P (Worker.bind m k) Q.
Proof.
  intros Hm Hk He j Hj. unfold Worker.bind.
  destruct (Hm j Hj) as [C1 Q1j]. destruct (m j) as [l1 [a|e]]; cbn in *.
  - destruct (Hk a _ Q1j) as [C2 Q2]. destruct (k a (Worker.current j l1)) as [l2 r2].
    cbn in *. rewrite current_app. split; [now apply chain_app|exact Q2].
  - split; [exact C1|now apply He].
Qed.

Lemma triple_try_except {A} (P : Job -> Prop) (Q1 Q : result A -> Job -> Prop)
    (m : W A) (h : exn -> W A) :
  triple R P m Q1 ->
  (forall a j, Q1 (Ok a) j -> Q (Ok a) j) ->
  (forall e, triple R (Q1 (Raise e)) (h e) Q) ->
  triple R P (try_except m h) Q.
Proof.
  intros Hm Hok Hh j Hj. unfold try_except.
  destruct (Hm j Hj) as [C1 Q1j]. destruct (m j) as [l1 [a|e]]; cbn in *.
  - split; [exact C1|now apply Hok].
  - destruct (Hh e _ Q1j) as [C2 Q2]. destruct (h e (Worker.current j l1)) as [l2 r2].
    cbn in *. rewrite current_app. split; [now apply chain_app|exact Q2].
Qed.

Lemma triple_consequence {A} (P P' : Job -> Prop) (Q Q' : result A -> Job -> Prop)
    (m : W A) :
  triple R P m Q ->
  (forall j, P' j -> P j) ->
  (forall r j, Q r j -> Q' r j) ->
  triple R P' m Q'.
Proof. intros H HP HQ j Hj. destruct (H j (HP j Hj)). split; auto. Qed.

(** A loop with an invariant [I] on what is left to read, and [E] on the
    record when the body raises. *)
Lemma triple_for_each {X} (I : list X -> Job -> Prop) (E : exn -> Job -> Prop)
    (body : X -> W unit) (xs : list X) :
  (forall x rest,
      triple R (I (x :: rest)) (body x)
        (fun r j => match r with Ok _ => I rest j | Raise e => E e j end)) ->
  triple R (I xs) (for_each xs body)
    (fun r j => match r with Ok _ => I [] j | Raise e => E e j end).
Proof.
  intros Hbody. induction xs as [|x rest IH].
  - intros j Hj. cbn. auto.
  - cbn [for_each]. eapply triple_bind.
    + apply Hbody.
    + intros []. cbn. exact IH.
    + intros e j H. exact H.
Qed.

(** The two shapes the worker is made of: a write followed by the rest, and
    a question to the environment followed by the rest. *)
Lemma triple_write_then {A} (P P' : Job -> Prop) (Q : result A -> Job -> Prop)
    (f : Job -> Job) (k : W A) :
  (forall j, P j -> R j (f j) /\ P' (f j)) ->
  triple R P' k Q ->
  triple R P (Worker.bind (write f) (fun _ => k)) Q.
Proof.
  intros Hf Hk. eapply triple_bind.
  - apply (triple_write P P'). exact Hf.
  - intros a. eapply triple_consequence; [exact Hk| |auto]. now intros j [_ H].
  - intros e j [H _]. discriminate H.
Qed.

Lemma triple_write_last (P : Job -> Prop) (Q : result unit -> Job -> Prop)
    (f : Job -> Job) :
  (forall j, P j -> R j (f j) /\ Q (Ok tt) (f j)) ->
  triple R P (write f) Q.
Proof. intros H j Hj. destruct (H j Hj). cbn. auto. Qed.

Lemma triple_lift_then {A B} (P : Job -> Prop) (Q : result B -> Job -> Prop)
    (r : result A) (k : A -> W B) :
  (forall a, r = Ok a -> triple R P (k a) Q) ->
  (forall e j, r = Raise e -> P j -> Q (Raise e) j) ->
  triple R P (Worker.bind (lift r) k) Q.
Proof.
  intros Hk He. eapply triple_bind.
  - apply triple_lift.
  - intros a. intros j [Hr Hj]. now apply (Hk a).
  - intros e j [Hr Hj]. now apply He.
Qed.

End Rules.

(** A write the property at hand says nothing about. *)
Ltac skip_write :=
  apply triple_write_then with (P' := fun _ => True); [now split|].

(** ** The progress parser *)

(** [handle_line] does what [classify] reads in the line. *)
Lemma handle_line_classify (dur : Q) (line : string) (j : Job) :
  App.handle_line dur line j =
  match Spec.classify line with
  | Spec.Skipped => ([], Ok tt)
  | Spec.OutTime n => ([set_pct (Spec.fraction dur n) j], Ok tt)
  | Spec.BadOutTime v =>
      ([], Raise (Exn ValueError
                    ("invalid literal for int() with base 10: " ++ Builtins.repr v)))
  | Spec.ProgressEnd => ([set_pct 1 j], Ok tt)
  end.
Proof.
  unfold App.handle_line, Spec.classify.
  destruct (negb (Str.contains "=" (Str.strip line))); [reflexivity|].
  destruct (Str.split1 "=" (Str.strip line)) as [k v].
  destruct (String.eqb k "out_time_ms").
  - unfold Worker.bind, lift. unfold Builtins.int.
    destruct (Builtins.int_literal (Str.strip v)); reflexivity.
  - destruct (String.eqb k "progress" && String.eqb v "end"); reflexivity.
Qed.

(** ** The state machine of the worker *)

Section StateMachine.

Import Spec.

Lemma moves_same (a b : Job) : status b = status a -> moves a b.
Proof. unfold moves. intros ->. now destruct (status a). Qed.

Lemma line_keeps_state (dur : Q) (line : string) (s : Status) :
  triple moves (fun j => status j = s) (App.handle_line dur line)
    (fun _ j => status j = s).
Proof.
  intros j Hj. rewrite handle_line_classify.
  destruct (classify line); cbn; repeat split; auto; now apply moves_same.
Qed.

Lemma lines_keep_state (dur : Q) (lines : list string) (s : Status) :
  triple moves (fun j => status j = s) (for_each lines (App.handle_line dur))
    (fun _ j => status j = s).
Proof.
  eapply triple_consequence.
  - apply (triple_for_each moves (fun _ j => status j = s) (fun _ j => status j = s)).
    intros x rest. eapply triple_consequence; [apply (line_keeps_state dur x s)| |].
    + auto.
    + intros [] ?; auto.
  - auto.
  - intros [] ?; auto.
Qed.

(** The second [try]: entered running; when it raises inside, the record is
    still running, provided the listing cannot fail. *)
Lemma split_and_collect_moves (w : World) (dur : Q) (ext out_pattern : string)
    (cmd : list string) :
  (forall d, is_ok (listdir w d) = true) ->
  triple moves (fun j => status j = Running)
    (App.split_and_collect w dur ext out_pattern cmd)
    (fun _ _ => True).
Proof.
  intros Hlist. unfold App.split_and_collect.
  apply triple_try_except
    with (Q1 := fun r j => match r with Ok _ => True | Raise _ => status j = Running end).
  - apply triple_lift_then; [|auto].
    intros proc _. eapply triple_bind.
    + apply lines_keep_state.
    + intros u. cbn beta.
      eapply triple_bind
        with (Q1 := fun r j => match r with Ok _ => True | Raise _ => status j = Running end).
      * destruct (negb (returncode proc =? 0)).
        -- apply triple_write_then with (P' := fun j => status j = Error).
           { intros j Hj. unfold moves. cbn. now rewrite Hj. }
           apply triple_write_last. intros j Hj. split; [now apply moves_same|exact I].
        -- apply triple_write_then with (P' := fun j => status j = Done).
           { intros j Hj. unfold moves. cbn. now rewrite Hj. }
           apply triple_write_then with (P' := fun j => status j = Done).
           { intros j Hj. split; [now apply moves_same|exact Hj]. }
           apply triple_lift_then.
           ++ intros names _. apply triple_write_last.
              intros j Hj. split; [now apply moves_same|exact I].
           ++ intros e j He. specialize (Hlist (App.str_or (OsPath.dirname out_pattern) ".")).
              rewrite He in Hlist. discriminate Hlist.
      * intros u'. apply triple_write_last. intros j _. split; [now apply moves_same|exact I].
      * auto.
    + auto.
  - auto.
  - intros e. apply triple_write_then with (P' := fun j => status j = Error).
    { intros j Hj. unfold moves. cbn. now rewrite Hj. }
    apply triple_write_then with (P' := fun j => status j = Error).
    { intros j Hj. split; [now apply moves_same|exact Hj]. }
    apply triple_write_last. intros j Hj. split; [now apply moves_same|exact I].
Qed.

Lemma run_job_moves (w : World) (cfg : Config) (input_path : string)
    (chunk_mb : Z) (pattern : option string) :
  (forall d, is_ok (listdir w d) = true) ->
  triple moves (fun j => status j = Queued)
    (App.run_job w cfg input_path chunk_mb pattern) (fun _ _ => True).
Proof.
  intros Hlist. unfold App.run_job. apply triple_lift_then; [|auto].
  intros _ _. destruct (App.metadata w input_path chunk_mb) as [[dur seg_time]|e].
  - apply triple_write_then with (P' := fun j => status j = Running).
    { intros j Hj. unfold moves. cbn. now rewrite Hj. }
    apply triple_write_then with (P' := fun j => status j = Running).
    { intros j Hj. split; [now apply moves_same|exact Hj]. }
    apply triple_write_then with (P' := fun j => status j = Running).
    { intros j Hj. split; [now apply moves_same|exact Hj]. }
    now apply split_and_collect_moves.
  - apply triple_write_then with (P' := fun j => status j = Error).
    { intros j Hj. unfold moves. cbn. now rewrite Hj. }
    apply triple_write_then with (P' := fun j => status j = Error).
    { intros j Hj. split; [now apply moves_same|exact Hj]. }
    apply triple_write_then with (P' := fun j => status j = Error).
    { intros j Hj. split; [now apply moves_same|exact Hj]. }
    apply triple_write_last. intros j Hj. split; [now apply moves_same|exact I].
Qed.

End StateMachine.

(** ** Progress along a run *)

Section Progress.

Import Spec.
Local Open Scope Q_scope.












End Progress.

(** ** The claims on the worker's runs *)

Section Runs.

Import Spec.


Lemma chain_StronglySorted (R R' : Job -> Job -> Prop) (j : Job) (log : list Job) :
  (forall a b, R a b -> R' a b) -> Transitive R' ->
  chain R j log -> StronglySorted R' (j :: log).
Proof.
  intros H T Hc. apply Sorted_StronglySorted; [exact T|].
  revert j Hc. induction log as [|x log IH]; intros j Hc.
  - repeat constructor.
  - destruct Hc as [Hx Hc]. constructor; [now apply IH|constructor; now apply H].
Qed.

End Runs.

(** C3, as the code has it. From queued the state goes to running, or
    straight to error when the metadata cannot be read; from running it goes
    to done or to error; as long as the output directory can be listed, a
    state that is done or error never changes again, neither by a later
    write of the worker nor by a later submission (which stores its record
    under its own fresh id). *)
Theorem state_moves_forward (w w' : World) (cfg : Config) (input_path : string)
    (chunk_mb : Z) (pattern : option string) (j0 : Job) :
  status j0 = Queued ->
  (forall d, is_ok (listdir w d) = true) ->
  let hist := Worker.history (App.run_job w cfg input_path chunk_mb pattern) j0 in
  Sorted Spec.moves hist /\
  StronglySorted
    (fun a b => is_terminal (status a) = true -> status b = status a) hist /\
  (forall (JOBS : Registry) request job_id j,
      JOBS !! job_id = Some j -> uuid4_hex w' 1%nat <> job_id ->
      (App.start w' cfg JOBS request).1.1 !! job_id = Some j).
Proof.
  intros Hq Hlist hist.
  destruct (run_job_moves w cfg input_path chunk_mb pattern Hlist j0 Hq) as [Hc _].
  split; [|split].
  - now apply chain_Sorted.
  - eapply chain_StronglySorted; [| |exact Hc].
    + unfold Spec.moves. intros a b Hm Ht.
      destruct (status a), (status b); try reflexivity; discriminate.
    + intros a b c Hab Hbc Ha. specialize (Hab Ha).
      rewrite <- Hab in Ha. rewrite (Hbc Ha). exact Hab.
  - intros JOBS request job_id j Hj Hid. unfold App.start.
    destruct (_ ≫= _) as [chunk|e]; [|exact Hj].
    destruct (App.files request !! "file") as [f|]; [|exact Hj].
    destruct (negb _); [|exact Hj].
    cbn. now rewrite lookup_insert_ne.
Qed.

Lemma state_moves_forward_witness :
  Sorted Spec.moves (Samples.run Samples.healthy) /\
  StronglySorted
    (fun a b => is_terminal (status a) = true -> status b = status a)
    (Samples.run Samples.healthy).
Proof.
  destruct (state_moves_forward Samples.healthy Samples.healthy Samples.cfg
              Samples.clip 5 None (Samples.job0 Samples.healthy)
              eq_refl (fun _ => eq_refl)) as (H1 & H2 & _).
  split; [exact H1|exact H2].
Defined.

(** C3 as stated fails: when ffprobe cannot give the duration, the record
    goes from queued to error without ever being running. (And when the
    output directory cannot be listed after a split that went well, the
    record, already done, is set to error.) *)
Lemma state_skips_running :
  map status (Samples.run Samples.no_duration) = [Queued; Error; Error; Error; Error] /\
  Spec.adjacent Spec.claimed_move (map status (Samples.run Samples.no_duration)) = false /\
  map status (Samples.run Samples.unlistable)
  = [Queued; Running; Running; Running; Running; Running; Done; Done;
     Error; Error; Error].
Proof. repeat split; vm_compute; reflexivity. Qed.




(** ** The progress lines *)

Lemma classify_out_time (line v : string) :
  Str.strip line = "out_time_ms=" ++ v ->
  Spec.classify line = match Builtins.int v with
                       | Ok n => Spec.OutTime n
                       | Raise _ => Spec.BadOutTime v
                       end.
Proof. intros H. unfold Spec.classify. rewrite H. reflexivity. Qed.

(** For a duration of a microsecond or more the divisor is the duration. *)
Lemma progress_line_effect_plain (dur : Q) (line v : string) (n : Z) (j : Job) :
  (1 / inject_Z (10 ^ 6) <= dur)%Q ->
  Str.strip line = "out_time_ms=" ++ v -> Builtins.int v = Ok n ->
  exists q,
    App.handle_line dur line j = ([set_pct q j], Ok tt) /\
    (q == Qmin 1 ((inject_Z n / inject_Z (10 ^ 6)) / dur))%Q.
Proof.
  intros Hdur Hline Hint.
  rewrite handle_line_classify, (classify_out_time _ _ Hline), Hint.
  exists (Spec.fraction dur n). split; [reflexivity|].
  unfold Spec.fraction. rewrite min_is_Qmin, max_is_Qmax.
  assert (Hmax : (Qmax dur App.eps == dur)%Q) by (apply Q.max_l; exact Hdur).
  rewrite Hmax. reflexivity.
Qed.




(** ** A reported time that is not an integer *)

Section Malformed.

Import Spec.



End Malformed.



(** ** The estimator and the prober on concrete files *)


(** What the prober of [app.py] does with the declared bitrate: a positive
    one is returned as it is; zero, a negative one, or a failed query give
    the size in bits over the duration, floored at [1e-6]. *)
(** X11. A positive bitrate that the container declares is returned as it
    is, without a look at the duration or the size. *)
Lemma declared_bitrate_is_used (w : World) (path text : string) (br : Z) :
  check_output w (App.ffprobe_cmd "format=bit_rate" path) = Ok text ->
  Builtins.int (Str.strip text) = Ok br ->
  0 < br ->
  App.ffprobe_bitrate_or_calc w path = Ok (inject_Z br).
Proof.
  intros Hout Hint Hpos. unfold App.ffprobe_bitrate_or_calc, App.declared_bitrate.
  rewrite Hout. cbn. rewrite Hint. cbn.
  destruct (0 <? br) eqn:E; [reflexivity|]. apply Z.ltb_ge in E. lia.
Qed.

Lemma bitrate_falls_back (w : World) (path : string) :
  (exists e, check_output w (App.ffprobe_cmd "format=bit_rate" path) = Raise e /\
             is_CalledProcessError e = true) \/
  (exists text br, check_output w (App.ffprobe_cmd "format=bit_rate" path) = Ok text /\
                   Builtins.int (Str.strip text) = Ok br /\ br <= 0) ->
  App.ffprobe_bitrate_or_calc w path = App.calc_bitrate w path.
Proof.
  unfold App.ffprobe_bitrate_or_calc, App.declared_bitrate.
  intros [(e & Hout & He)|(text & br & Hout & Hint & Hle)]; rewrite Hout; cbn.
  - now rewrite He.
  - rewrite Hint. cbn. destruct (0 <? br) eqn:E; [|reflexivity].
    apply Z.ltb_lt in E. lia.
Qed.

Lemma calc_bitrate_value (w : World) (path text : string) (dur : Q) (size : Z) :
  check_output w (App.ffprobe_cmd "format=duration" path) = Ok text ->
  Builtins.float (Str.strip text) = Ok dur ->
  getsize w path = Ok size ->
  exists b, App.calc_bitrate w path = Ok b /\
            (b == inject_Z (size * 8) / Qmax dur (1 # 1000000))%Q.
Proof.
  intros Hout Hdur Hsize. unfold App.calc_bitrate, App.ffprobe_duration.
  rewrite Hout. cbn. rewrite Hdur. cbn. rewrite Hsize. cbn.
  eexists. split; [reflexivity|]. now rewrite max_is_Qmax.
Qed.

(** C5 on the code. When the container declares no bitrate, ffprobe prints
    [N/A] (or nothing): [int] raises [ValueError], which
    [ffprobe_bitrate_or_calc] does not catch, so the prober of [app.py]
    fails instead of falling back; [slice.py] falls back on an empty answer,
    and [app.py] itself falls back when the answer is 0. *)
Theorem absent_bitrate_is_not_caught :
  App.ffprobe_bitrate_or_calc (Samples.bitrate_says "N/A") Samples.clip
  = Raise (Exn ValueError "invalid literal for int() with base 10: 'N/A'") /\
  App.ffprobe_bitrate_or_calc (Samples.bitrate_says "") Samples.clip
  = Raise (Exn ValueError "invalid literal for int() with base 10: ''") /\
  (exists b, Slice.bit_rate (Samples.bitrate_says "") Samples.clip = Ok b /\ (b == 800)%Q) /\
  (exists b, App.ffprobe_bitrate_or_calc (Samples.bitrate_says "0") Samples.clip = Ok b
             /\ (b == 800)%Q).
Proof.
  repeat split; try (vm_compute; reflexivity);
    eexists; (split; [vm_compute; reflexivity|reflexivity]).
Qed.

(** ** Submissions *)



(** ** Paths *)

Section Paths.

Import Spec.

Lemma app_cons (c : ascii) (a b : string) : String c a ++ b = String c (a ++ b).
Proof. reflexivity. Qed.

Lemma app_assoc (a b c : string) : (a ++ b) ++ c = a ++ (b ++ c).
Proof. induction a as [|x a IH]; [reflexivity|]. now rewrite !app_cons, IH. Qed.

Lemma app_empty_r (a : string) : a ++ "" = a.
Proof. induction a as [|x a IH]; [reflexivity|]. now rewrite app_cons, IH. Qed.

Lemma take_app (a b : string) : Str.take (String.length a) (a ++ b) = a.
Proof.
  induction a as [|x a IH]; [now destruct b|].
  rewrite app_cons. cbn [String.length Str.take]. now rewrite IH.
Qed.

Lemma drop_app (a b : string) : Str.drop (String.length a) (a ++ b) = b.
Proof. induction a as [|x a IH]; [reflexivity|]. exact IH. Qed.

Lemma take_drop (n : nat) (s : string) : Str.take n s ++ Str.drop n s = s.
Proof.
  revert s. induction n as [|n IH]; intros s; [reflexivity|].
  destruct s as [|c s]; [reflexivity|].
  cbn [Str.take Str.drop]. now rewrite app_cons, IH.
Qed.

Lemma length_app (a b : string) :
  String.length (a ++ b) = (String.length a + String.length b)%nat.
Proof.
  induction a as [|x a IH]; [reflexivity|].
  rewrite app_cons. cbn [String.length]. now rewrite IH.
Qed.

Lemma contains_app (c : ascii) (a b : string) :
  Str.contains c (a ++ b) = Str.contains c a || Str.contains c b.
Proof.
  induction a as [|x a IH]; [reflexivity|].
  rewrite app_cons. cbn [Str.contains]. now rewrite IH, orb_assoc.
Qed.

(** Where the search starts only shifts the index. *)
Lemma rfind_from_shift (c : ascii) (s : string) (i : Z) :
  0 <= i ->
  Str.rfind_from c s i =
  if 0 <=? Str.rfind c s then Str.rfind c s + i else -1.
Proof.
  unfold Str.rfind. revert i. induction s as [|a s IH]; intros i Hi; [reflexivity|].
  cbn [Str.rfind_from]. rewrite (IH (i + 1)), (IH (0 + 1)) by lia.
  destruct (Z.leb_spec 0 (Str.rfind_from c s 0)); destruct (Ascii.eqb a c);
    repeat match goal with
           | |- context [0 <=? ?x] =>
               lazymatch x with
               | context [Z.leb] => fail
               | _ => destruct (Z.leb_spec 0 x)
               end
           end; lia.
Qed.

Lemma rfind_cons (c a : ascii) (s : string) :
  Str.rfind c (String a s) =
  if 0 <=? Str.rfind c s then Str.rfind c s + 1
  else if Ascii.eqb a c then 0 else -1.
Proof.
  unfold Str.rfind at 1. cbn [Str.rfind_from]. rewrite rfind_from_shift by lia.
  destruct (Z.leb_spec 0 (Str.rfind c s)); destruct (Ascii.eqb a c);
    repeat match goal with
           | |- context [0 <=? ?x] =>
               lazymatch x with
               | context [Z.leb] => fail
               | _ => destruct (Z.leb_spec 0 x)
               end
           end; lia.
Qed.

Lemma rfind_absent (c : ascii) (s : string) :
  Str.contains c s = false -> Str.rfind c s = -1.
Proof.
  induction s as [|a s IH]; [reflexivity|]. cbn [Str.contains].
  intros H. apply orb_false_iff in H as [Ha Hs].
  rewrite rfind_cons, (IH Hs), Ha. reflexivity.
Qed.

Lemma rfind_bounds (c : ascii) (s : string) :
  -1 <= Str.rfind c s < Z.of_nat (String.length s).
Proof.
  induction s as [|a s IH]; [cbn; lia|].
  rewrite rfind_cons. cbn [String.length].
  destruct (0 <=? Str.rfind c s) eqn:E; [lia|]. destruct (Ascii.eqb a c); lia.
Qed.

(** The last occurrence is the one with no other after it. *)
Lemma rfind_last (c : ascii) (a b : string) :
  Str.contains c b = false ->
  Str.rfind c (a ++ String c b) = Z.of_nat (String.length a).
Proof.
  intros Hb. induction a as [|x a IH].
  - change ("" ++ String c b) with (String c b).
    rewrite rfind_cons, (rfind_absent _ _ Hb), Ascii.eqb_refl. reflexivity.
  - rewrite app_cons, rfind_cons, IH. cbn [String.length].
    destruct (0 <=? Z.of_nat (String.length a)) eqn:E; [lia|].
    apply Z.leb_gt in E. lia.
Qed.

Lemma rfind_app_absent (c : ascii) (a b : string) :
  Str.contains c b = false -> Str.rfind c (a ++ b) = Str.rfind c a.
Proof.
  intros Hb. induction a as [|x a IH].
  - change ("" ++ b) with b. now rewrite rfind_absent.
  - now rewrite app_cons, !rfind_cons, IH.
Qed.

(** A string has no [c], or a last one. *)
Lemma last_occurrence (c : ascii) (s : string) :
  Str.contains c s = false \/
  exists a b, s = a ++ String c b /\ Str.contains c b = false.
Proof.
  induction s as [|x s IH]; [now left|].
  destruct IH as [Hs|(a & b & -> & Hb)].
  - destruct (Ascii.eqb x c) eqn:E.
    + right. apply Ascii.eqb_eq in E as ->. now exists "", s.
    + left. cbn. now rewrite E.
  - right. now exists (String x a), b.
Qed.

Lemma path_decompose (p : string) :
  exists dir name,
    p = dir ++ name /\ Str.contains OsPath.sep name = false /\ is_dir_prefix dir.
Proof.
  destruct (last_occurrence OsPath.sep p) as [H|(a & b & -> & Hb)].
  - exists "", p. repeat split; [exact H|now left].
  - exists (a ++ "/"), b. repeat split; [|exact Hb|right; now exists a].
    now rewrite app_assoc.
Qed.

Lemma rfind_sep_dir (dir name : string) :
  Str.contains OsPath.sep name = false -> is_dir_prefix dir ->
  Str.rfind OsPath.sep (dir ++ name) + 1 = Z.of_nat (String.length dir).
Proof.
  intros Hname [->|(d & ->)].
  - change ("" ++ name) with name. now rewrite rfind_absent.
  - rewrite app_assoc. change ("/" ++ name) with (String OsPath.sep name).
    rewrite (rfind_last _ _ _ Hname), length_app. cbn [String.length]. lia.
Qed.

Lemma basename_dir (dir name : string) :
  Str.contains OsPath.sep name = false -> is_dir_prefix dir ->
  OsPath.basename (dir ++ name) = name.
Proof.
  intros Hname Hdir. unfold OsPath.basename.
  rewrite (rfind_sep_dir _ _ Hname Hdir), Nat2Z.id. apply drop_app.
Qed.

(** [splitext] looks at the last component only. *)
Lemma splitext_dir (dir name : string) :
  Str.contains OsPath.sep name = false -> is_dir_prefix dir ->
  OsPath.splitext (dir ++ name)
  = (dir ++ fst (OsPath.splitext name), snd (OsPath.splitext name)).
Proof.
  intros Hname Hdir. unfold OsPath.splitext.
  pose proof (rfind_sep_dir _ _ Hname Hdir) as Hsep.
  pose proof (rfind_absent _ _ Hname) as Hsep0.
  replace (Z.to_nat (Str.rfind OsPath.sep (dir ++ name) + 1))
    with (String.length dir) by lia.
  rewrite Hsep0. change (Z.to_nat (-1 + 1)) with O. cbn [Str.drop].
  rewrite drop_app.
  destruct (last_occurrence OsPath.extsep name) as [Hdot|(b1 & b2 & -> & Hb2)].
  - rewrite (rfind_absent _ _ Hdot). cbn [Z.ltb Z.compare fst snd].
    assert (Hno : Str.rfind OsPath.extsep (dir ++ name) <= Str.rfind OsPath.sep (dir ++ name)).
    { rewrite (rfind_app_absent _ _ _ Hdot).
      pose proof (rfind_bounds OsPath.extsep dir). lia. }
    apply Z.ltb_ge in Hno. now rewrite Hno.
  - rewrite (rfind_last _ b1 b2 Hb2).
    rewrite <- (app_assoc dir b1), (rfind_last _ (dir ++ b1) b2 Hb2), length_app.
    assert (H1 : (Str.rfind OsPath.sep (dir ++ b1 ++ String OsPath.extsep b2)
                  <? Z.of_nat (String.length dir + String.length b1)) = true).
    { rewrite <- (app_assoc dir b1). apply Z.ltb_lt. rewrite app_assoc. lia. }
    rewrite (app_assoc dir b1), H1.
    assert (H2 : (-1 <? Z.of_nat (String.length b1)) = true) by (apply Z.ltb_lt; lia).
    rewrite H2, !Nat2Z.id.
    replace (String.length dir + String.length b1 - String.length dir)%nat
      with (String.length b1) by lia.
    rewrite Nat.sub_0_r, take_app.
    destruct (Str.all_chars (Ascii.eqb OsPath.extsep) b1); [reflexivity|].
    cbn [fst snd]. rewrite drop_app.
    rewrite <- (app_assoc dir b1), <- length_app, take_app, drop_app.
    reflexivity.
Qed.

Lemma splitext_joins (p : string) :
  fst (OsPath.splitext p) ++ snd (OsPath.splitext p) = p.
Proof.
  unfold OsPath.splitext.
  destruct (_ <? _); [|apply app_empty_r].
  destruct (Str.all_chars _ _); [apply app_empty_r|]. apply take_drop.
Qed.

(** The extension of a path is the extension of its last component, and
    what is left of the last component is the last component of what is left
    of the path. *)
Lemma splitext_basename (p : string) :
  OsPath.splitext (OsPath.basename p)
  = (OsPath.basename (fst (OsPath.splitext p)), snd (OsPath.splitext p)).
Proof.
  destruct (path_decompose p) as (dir & name & -> & Hname & Hdir).
  rewrite (splitext_dir _ _ Hname Hdir), (basename_dir _ _ Hname Hdir).
  cbn [fst snd].
  assert (Hstem : Str.contains OsPath.sep (fst (OsPath.splitext name)) = false).
  { pose proof (splitext_joins name) as Hj. rewrite <- Hj, contains_app in Hname.
    now apply orb_false_iff in Hname as [H _]. }
  rewrite (basename_dir _ _ Hstem Hdir). now destruct (OsPath.splitext name).
Qed.

End Paths.

(** ** The output pattern *)

Section Pattern.

Import Spec.





End Pattern.



(** ** The produced files *)

Section Produced.

Import Spec.



(** *** The order of the names *)

Lemma sorted_is_permutation (l : list string) : Permutation (App.sorted l) l.
Proof. apply merge_sort_Permutation. Qed.

Lemma sorted_is_sorted (l : list string) : StronglySorted String.le (App.sorted l).
Proof. apply StronglySorted_merge_sort; apply _. Qed.








(** *** The shape of the derived pattern *)



Lemma basename_has_no_sep (p : string) :
  Str.contains OsPath.sep (OsPath.basename p) = false.
Proof.
  destruct (path_decompose p) as (dir & name & -> & Hname & Hdir).
  now rewrite (basename_dir _ _ Hname Hdir).
Qed.

Lemma endswith_sep (d : string) :
  Str.endswith d "/" = true -> exists d', d = d' ++ "/".
Proof.
  induction d as [|x d IH]; [discriminate|].
  cbn [Str.endswith]. intros H. apply orb_true_iff in H as [H|H].
  - apply String.eqb_eq in H. now exists "".
  - destruct (IH H) as [d' ->]. now exists (String x d').
Qed.

Lemma basename_join (d n : string) :
  Str.contains OsPath.sep n = false -> OsPath.basename (OsPath.join d n) = n.
Proof.
  intros Hn. unfold OsPath.join.
  destruct (Str.startswith n "/") eqn:Es.
  - destruct n as [|c n]; [reflexivity|].
    apply String.prefix_correct in Es. cbn [String.length String.substring] in Es.
    cbn [Str.contains] in Hn. apply orb_false_iff in Hn as [Hc _].
    destruct n; injection Es as ->; discriminate Hc.
  - destruct (String.eqb d "" || Str.endswith d "/") eqn:Ed.
    + apply basename_dir; [exact Hn|].
      apply orb_true_iff in Ed as [Ed|Ed].
      * left. now apply String.eqb_eq.
      * right. now apply endswith_sep.
    + rewrite <- app_assoc. apply basename_dir; [exact Hn|]. right. now exists d.
Qed.




End Produced.




(** ** The progress stream *)

(** X15. A reader whose rounds each see the record at one moment gets the
    snapshots up to the first terminal one, and the generator returns when
    there is one. *)
Lemma gen_of_atomic_rounds (h : nat -> Job) (ts : list nat) :
  App.gen h (map Spec.all_at ts)
  = (map (fun t => Spec.snapshot (h t)) (Spec.upto_terminal h ts),
     existsb (fun t => is_terminal (status (h t))) ts).
Proof.
  induction ts as [|t ts IH]; [reflexivity|].
  cbn [map App.gen Spec.upto_terminal existsb].
  unfold App.gen_round. cbn [Spec.all_at App.t_status App.t_pct App.t_msg App.t_cond
                              App.t_parts App.t_break].
  destruct (is_terminal (status (h t))) eqn:E.
  - cbn [map]. unfold Spec.snapshot. now rewrite E.
  - rewrite IH. cbn [map orb]. unfold Spec.snapshot at 2. now rewrite E.
Qed.

(** An unknown job is answered with 404, a known one with the stream. *)
Lemma progress_stream_of_known_job (JOBS : Registry) (job_id : string)
    (h : nat -> Job) (schedule : list App.Reads) :
  App.progress_stream JOBS job_id h schedule
  = match JOBS !! job_id with
    | None => App.abort 404 ""
    | Some _ => Ok (App.gen h schedule)
    end.
Proof. reflexivity. Qed.

(** C8 on the code. The worker sets the state to done before it lists the
    parts, and the generator reads the state again after the [yield]. A
    reader that polls between the two writes gets a last event that says
    done with no files, though the finished record has two; a reader whose
    test after the [yield] is the first read to see a terminal state gets a
    stream that ends on an event that says running. *)
Theorem stream_can_end_without_the_parts :
  parts (Worker.final (App.run_job Samples.healthy Samples.cfg Samples.clip 5 None)
                      (Samples.job0 Samples.healthy))
  = ["aaaa_clip_part000.mp4"; "aaaa_clip_part001.mp4"] /\
  (Spec.in_order Samples.early_poll = true /\
   let '(events, returned) := App.gen Samples.healthy_record Samples.early_poll in
   returned = true /\
   map App.p_status events = [Running; Done] /\
   map App.p_files events = [[]; []]) /\
  (Spec.in_order Samples.late_test = true /\
   let '(events, returned) := App.gen Samples.healthy_record Samples.late_test in
   returned = true /\
   map App.p_status events = [Running]).
Proof. repeat split; vm_compute; reflexivity. Qed.

(** * Further properties of the code *)

(** ** How a run of the worker ends *)

Section Settling.

Import Spec.

Variable R : Job -> Job -> Prop.
Hypothesis R_status : forall s j, R j (set_status s j).
Hypothesis R_pct : forall v j, R j (set_pct v j).
Hypothesis R_msg : forall v j, R j (set_msg v j).
Hypothesis R_finished : forall v j, R j (set_finished v j).
Hypothesis R_out_pattern : forall v j, R j (set_out_pattern v j).
Hypothesis R_parts : forall v j, R j (set_parts v j).

Lemma lines_respect (dur : Q) (lines : list string) :
  triple R (fun _ => True) (for_each lines (App.handle_line dur)) (fun _ _ => True).
Proof.
  eapply triple_consequence.
  - apply (triple_for_each R (fun _ _ => True) (fun _ _ => True)).
    intros x rest j _. rewrite handle_line_classify.
    destruct (classify x); cbn; repeat split; apply R_pct.
  - auto.
  - now intros [] ?.
Qed.

(** With both tools installed, a run writes along [R] only, lets no
    exception out, and leaves the record terminal with its finish time. *)
Lemma run_job_settles (w : World) (cfg : Config) (input_path : string)
    (chunk_mb : Z) (pattern : option string) :
  App.require_tools w = Ok tt ->
  triple R (fun _ => True) (App.run_job w cfg input_path chunk_mb pattern)
    (fun r j => r = Ok tt /\ is_terminal (status j) = true /\
                finished j = Some (time w)).
Proof.
  intros Htools. unfold App.run_job. rewrite Htools.
  apply triple_lift_then; [|discriminate]. intros _ _.
  destruct (App.metadata w input_path chunk_mb) as [[dur seg_time]|e].
  - apply triple_write_then with (P' := fun _ => True); [intros; split; auto|].
    apply triple_write_then with (P' := fun _ => True); [intros; split; auto|].
    apply triple_write_then with (P' := fun _ => True); [intros; split; auto|].
    unfold App.split_and_collect.
    apply triple_try_except
      with (Q1 := fun r j => match r with
                             | Ok _ => is_terminal (status j) = true /\
                                       finished j = Some (time w)
                             | Raise _ => True
                             end).
    + apply triple_lift_then; [|auto]. intros proc _.
      eapply triple_bind with (Q1 := fun _ _ => True);
        [apply lines_respect|intros u|auto].
      eapply triple_bind
        with (Q1 := fun r j => match r with
                               | Ok _ => is_terminal (status j) = true
                               | Raise _ => True
                               end).
      * destruct (negb _).
        -- apply triple_write_then with (P' := fun j => is_terminal (status j) = true);
             [intros; split; auto|].
           apply triple_write_last. intros j Hj. split; auto.
        -- apply triple_write_then with (P' := fun j => is_terminal (status j) = true);
             [intros; split; auto|].
           apply triple_write_then with (P' := fun j => is_terminal (status j) = true);
             [intros j Hj; split; auto|].
           apply triple_lift_then; [|auto]. intros names _.
           apply triple_write_last. intros j Hj. split; auto.
      * intros u'. apply triple_write_last. intros j Hj. split; auto.
      * auto.
    + intros [] j H. now split.
    + intros e.
      apply triple_write_then with (P' := fun j => is_terminal (status j) = true);
        [intros; split; auto|].
      apply triple_write_then with (P' := fun j => is_terminal (status j) = true);
        [intros j Hj; split; auto|].
      apply triple_write_last. intros j Hj. split; auto.
  - apply triple_write_then with (P' := fun j => is_terminal (status j) = true);
      [intros; split; auto|].
    apply triple_write_then with (P' := fun j => is_terminal (status j) = true);
      [intros j Hj; split; auto|].
    apply triple_write_then with (P' := fun j => is_terminal (status j) = true);
      [intros j Hj; split; auto|].
    apply triple_write_last. intros j Hj. split; auto.
Qed.

End Settling.

Lemma missing_tool_raises (w : World) :
  which w "ffmpeg" = false \/ which w "ffprobe" = false ->
  App.require_tools w = Raise (Exn RuntimeError "ffmpeg and ffprobe must be on PATH").
Proof.
  intros H. unfold App.require_tools.
  destruct H as [-> | ->]; [reflexivity|]. now rewrite orb_true_r.
Qed.

(** X1. When ffmpeg or ffprobe is not installed, the worker raises before
    its first write: the record stays as it was submitted, and the exception
    leaves [run_job]. *)
Theorem missing_tools_leave_job_untouched (w : World) (cfg : Config)
    (input_path : string) (chunk_mb : Z) (pattern : option string) (j0 : Job) :
  which w "ffmpeg" = false \/ which w "ffprobe" = false ->
  Worker.history (App.run_job w cfg input_path chunk_mb pattern) j0 = [j0] /\
  snd (App.run_job w cfg input_path chunk_mb pattern j0)
  = Raise (Exn RuntimeError "ffmpeg and ffprobe must be on PATH").
Proof.
  intros H. unfold Worker.history, App.run_job.
  rewrite (missing_tool_raises w H). split; reflexivity.
Qed.


Lemma chain_keeps_identity (j : Job) (log : list Job) :
  Spec.chain Spec.keeps_identity j log ->
  Forall (fun x => input_path x = input_path j /\ started x = started j) log.
Proof.
  revert j. induction log as [|x log IH]; intros j H; [constructor|].
  destruct H as [[Hi Hs] H]. constructor; [now split|].
  eapply Forall_impl; [apply (IH x H)|].
  intros y [Hyi Hys]. split; congruence.
Qed.

(** X4. No write of the worker changes the input path or the submission
    time of the record: they are the same in every value the record takes
    during a run. *)
Theorem run_keeps_identity (w : World) (cfg : Config) (input_path0 : string)
    (chunk_mb : Z) (pattern : option string) (j0 : Job) :
  Forall (fun j => input_path j = input_path j0 /\ started j = started j0)
         (Worker.history (App.run_job w cfg input_path0 chunk_mb pattern) j0).
Proof.
  constructor; [now split|]. apply chain_keeps_identity.
  destruct (App.require_tools w) as [[]|e] eqn:Htools.
  - now destruct (run_job_settles Spec.keeps_identity
                    (fun _ _ => conj eq_refl eq_refl) (fun _ _ => conj eq_refl eq_refl)
                    (fun _ _ => conj eq_refl eq_refl) (fun _ _ => conj eq_refl eq_refl)
                    (fun _ _ => conj eq_refl eq_refl) (fun _ _ => conj eq_refl eq_refl)
                    w cfg input_path0 chunk_mb pattern Htools j0 I).
  - unfold App.run_job. rewrite Htools. exact I.
Qed.

Lemma missing_tools_leave_job_untouched_witness :
  Worker.history (App.run_job Samples.no_ffmpeg Samples.cfg Samples.clip 5 None)
                 (Samples.job0 Samples.no_ffmpeg)
  = [Samples.job0 Samples.no_ffmpeg].
Proof.
  exact (proj1 (missing_tools_leave_job_untouched Samples.no_ffmpeg Samples.cfg
                  Samples.clip 5 None (Samples.job0 Samples.no_ffmpeg)
                  (or_introl eq_refl))).
Defined.






Section Exits.

Import Spec.



Lemma run_job_done_means_clean_exit (w : World) (cfg : Config) (input_path : string)
    (chunk_mb : Z) (pattern : option string) :
  triple any_write (fun j => status j <> Done)
    (App.run_job w cfg input_path chunk_mb pattern)
    (fun _ j => status j = Done -> clean_exit w cfg input_path chunk_mb pattern j).
Proof.
  unfold App.run_job. apply triple_lift_then.
  2:{ intros e j _ Hj Hd. contradiction. }
  intros _ _.
  destruct (App.metadata w input_path chunk_mb) as [[dur seg_time]|e] eqn:Hmeta.
  - set (out := App.derive_out_pattern cfg input_path pattern).
    set (ext := App.str_or (snd (OsPath.splitext input_path)) ".mp4").
    do 3 skip_write.
    unfold App.split_and_collect.
    apply triple_try_except
      with (Q1 := fun r j =>
                    match r with
                    | Ok _ => status j = Done ->
                              clean_exit w cfg input_path chunk_mb pattern j
                    | Raise _ => True
                    end); [|auto|].
    + apply triple_lift_then; [|auto]. intros proc Hproc.
      eapply triple_bind with (Q1 := fun _ _ => True);
        [apply (lines_respect any_write); now intros|intros u|auto].
      eapply triple_bind
        with (Q1 := fun r j =>
                      match r with
                      | Ok _ => status j = Done ->
                                clean_exit w cfg input_path chunk_mb pattern j
                      | Raise _ => True
                      end); [|intros u'|auto].
      * destruct (negb (returncode proc =? 0)) eqn:Hret.
        -- apply triple_write_then with (P' := fun j => status j = Error); [now split|].
           apply triple_write_last. intros j Hj. split; [exact I|].
           cbn. intros Hd. congruence.
        -- apply negb_false_iff, Z.eqb_eq in Hret.
           skip_write.
           apply triple_write_then with (P' := fun j => msg j = "Completed");
             [now split|].
           apply triple_lift_then; [|auto]. intros names Hnames.
           apply triple_write_last. intros j Hj. split; [exact I|].
           intros _. exists dur, seg_time, proc, names. cbn zeta.
           repeat split; auto.
      * apply triple_write_last. intros j Hj. split; [exact I|].
        cbn [status set_finished]. intros Hd.
        destruct (Hj Hd) as (d & s & p & n & H). exists d, s, p, n. exact H.
    + intros e.
      apply triple_write_then with (P' := fun j => status j = Error); [now split|].
      apply triple_write_then with (P' := fun j => status j = Error); [now split|].
      apply triple_write_last. intros j Hj. split; [exact I|].
      cbn. intros Hd. congruence.
  - apply triple_write_then with (P' := fun j => status j = Error); [now split|].
    do 2 (apply triple_write_then with (P' := fun j => status j = Error); [now split|]).
    apply triple_write_last. intros j Hj. split; [exact I|].
    cbn. intros Hd. congruence.
Qed.

End Exits.



(** X7. The worker marks a job done only after a clean exit: if a run that
    started from a record not yet done ends in done, then the metadata was
    read, the splitter was started and exited with 0, the output directory
    was listed, the parts are the sorted matching names of that listing and
    the message is [Completed]. *)
Theorem done_means_clean_exit (w : World) (cfg : Config) (input_path : string)
    (chunk_mb : Z) (pattern : option string) (j0 : Job) :
  status j0 <> Done ->
  let final := Worker.final (App.run_job w cfg input_path chunk_mb pattern) j0 in
  status final = Done ->
  Spec.clean_exit w cfg input_path chunk_mb pattern final.
Proof.
  intros H0 final.
  now destruct (run_job_done_means_clean_exit w cfg input_path chunk_mb pattern j0 H0).
Qed.

Lemma done_means_clean_exit_witness :
  Spec.clean_exit Samples.healthy Samples.cfg Samples.clip 5 None
    (Worker.final (App.run_job Samples.healthy Samples.cfg Samples.clip 5 None)
                  (Samples.job0 Samples.healthy)).
Proof.
  apply (done_means_clean_exit Samples.healthy Samples.cfg Samples.clip 5 None
           (Samples.job0 Samples.healthy)).
  - discriminate.
  - vm_compute. reflexivity.
Defined.

(** ** The estimator and the prober at their edges *)

(** X8. A segment time that either estimator returns is never below one
    second, whatever the chunk size and the bitrate. *)
Theorem segment_time_at_least_one (w : World) (path : string) (chunk_mb : Z)
    (seg_time : Q) :
  App.estimate_seg_time_secs w path chunk_mb = Ok seg_time \/
  Slice.compute_segment_time_secs w path chunk_mb = Ok seg_time ->
  (1 <= seg_time)%Q.
Proof.
  unfold App.estimate_seg_time_secs, Slice.compute_segment_time_secs.
  intros [H|H].
  - destruct (App.ffprobe_bitrate_or_calc w path) as [b|e]; [|discriminate H].
    cbn in H. destruct (Builtins.truediv _ b) as [q|e]; [|discriminate H].
    cbn in H. injection H as <-. apply max_ge_l.
  - destruct (Slice.bit_rate w path) as [b|e]; [|discriminate H].
    cbn in H. destruct (Builtins.truediv _ b) as [q|e]; [|discriminate H].
    cbn in H. injection H as <-. apply max_ge_l.
Qed.

Lemma segment_time_at_least_one_witness : (1 <= 41943040 # 4000000)%Q.
Proof.
  apply (segment_time_at_least_one Samples.healthy Samples.clip 5).
  left. vm_compute. reflexivity.
Defined.



(** X12. When the bitrate query of [app.py] fails with
    [CalledProcessError], or answers an integer that is not positive, and
    the duration and the size can be read, the prober returns the size in
    bits over the duration floored at [1e-6]: it never divides by zero, and
    for a duration of a microsecond or less the result is the size times
    8000000. *)
Theorem fallback_bitrate_value (w : World) (path text : string) (dur : Q)
    (size : Z) :
  (exists e, check_output w (App.ffprobe_cmd "format=bit_rate" path) = Raise e /\
             is_CalledProcessError e = true) \/
  (exists answer br, check_output w (App.ffprobe_cmd "format=bit_rate" path) = Ok answer /\
                     Builtins.int (Str.strip answer) = Ok br /\ br <= 0) ->
  check_output w (App.ffprobe_cmd "format=duration" path) = Ok text ->
  Builtins.float (Str.strip text) = Ok dur ->
  getsize w path = Ok size ->
  exists b,
    App.ffprobe_bitrate_or_calc w path = Ok b /\
    (b == inject_Z (size * 8) / Qmax dur (1 # 1000000))%Q /\
    ((dur <= 1 # 1000000)%Q -> (b == inject_Z (size * 8000000))%Q).
Proof.
  intros Hrate Hout Hdur Hsize.
  rewrite (bitrate_falls_back w path Hrate).
  destruct (calc_bitrate_value w path text dur size Hout Hdur Hsize) as (b & Hb & Heq).
  exists b. split; [exact Hb|]. split; [exact Heq|].
  intros Hle. rewrite Heq, (Q.max_r _ _ Hle).
  unfold Qdiv. change (/ (1 # 1000000))%Q with (inject_Z 1000000).
  rewrite <- inject_Z_mult. apply inject_Z_injective. lia.
Qed.

Lemma fallback_bitrate_value_witness :
  exists b, App.ffprobe_bitrate_or_calc Samples.zero_duration Samples.clip = Ok b /\
            (b == 8000000000)%Q.
Proof.
  destruct (fallback_bitrate_value Samples.zero_duration Samples.clip
              ("0.000000" ++ Samples.newline) (0 # 1000000) 1000) as (b & Hb & _ & Heq).
  - right. exists ("0" ++ Samples.newline), 0. repeat split. discriminate.
  - reflexivity.
  - vm_compute. reflexivity.
  - reflexivity.
  - exists b. split; [exact Hb|]. apply Heq. discriminate.
Defined.

(** X10. In [slice.py], when no positive bitrate is declared (an empty
    answer, an integer that is not positive, or a failed query) and the
    duration reads as zero or less, the estimator raises [RuntimeError]
    with [Could not determine duration.] where [app.py] floors the
    duration. *)
Theorem slice_rejects_nonpositive_duration (w : World) (input_file : string)
    (duration size : string) (dur : Q) (size_bytes : Z) :
  (exists e, Slice.ffprobe_value w input_file "format=bit_rate" = Raise e /\
             is_CalledProcessError e = true) \/
  Slice.ffprobe_value w input_file "format=bit_rate" = Ok "" \/
  (exists answer br, Slice.ffprobe_value w input_file "format=bit_rate" = Ok answer /\
                     answer <> "" /\ Builtins.int answer = Ok br /\ br <= 0) ->
  Slice.ffprobe_value w input_file "format=duration" = Ok duration ->
  Builtins.float duration = Ok dur ->
  (dur <= 0)%Q ->
  Slice.ffprobe_value w input_file "format=size" = Ok size ->
  Builtins.int size = Ok size_bytes ->
  Slice.bit_rate w input_file
  = Raise (Exn RuntimeError "Could not determine duration.").
Proof.
  intros Hrate Hd Hdur Hle Hs Hsize. unfold Slice.bit_rate.
  assert (Hdecl : exists br,
             br <= 0 /\
             match (bit_rate_str ← Slice.ffprobe_value w input_file "format=bit_rate";
                    if String.eqb bit_rate_str "" then Ok 0
                    else Builtins.int bit_rate_str) with
             | Ok b => Ok b
             | Raise e => if is_CalledProcessError e then Ok 0 else Raise e
             end = Ok br).
  { destruct Hrate as [(e & -> & He)|[->|(answer & br & -> & Hne & Hint & Hbr)]].
    - exists 0. cbn. now rewrite He.
    - exists 0. split; [lia|reflexivity].
    - exists br. split; [exact Hbr|]. cbn.
      apply String.eqb_neq in Hne. now rewrite Hne, Hint. }
  destruct Hdecl as (br & Hbr & ->). cbn.
  apply Z.leb_le in Hbr. rewrite Hbr, Hd. cbn. rewrite Hdur. cbn. rewrite Hs. cbn.
  rewrite Hsize. cbn.
  assert (Hq : Qle_bool dur 0 = true) by now apply Qle_bool_iff.
  now rewrite Hq.
Qed.

Lemma slice_rejects_nonpositive_duration_witness :
  Slice.bit_rate Samples.zero_duration Samples.clip
  = Raise (Exn RuntimeError "Could not determine duration.").
Proof.
  apply (slice_rejects_nonpositive_duration Samples.zero_duration Samples.clip
           "0.000000" "1000" (0 # 1000000) 1000).
  - right. right. exists "0", 0. repeat split; [discriminate|lia].
  - reflexivity.
  - vm_compute. reflexivity.
  - discriminate.
  - reflexivity.
  - reflexivity.
Defined.

Lemma declared_bitrate_is_used_witness :
  App.ffprobe_bitrate_or_calc Samples.healthy Samples.clip = Ok (inject_Z 4000000).
Proof.
  apply (declared_bitrate_is_used Samples.healthy Samples.clip
           ("4000000" ++ Samples.newline) 4000000); [reflexivity|reflexivity|lia].
Defined.

(** ** Submissions that are accepted, and those without a file *)

(** X13. A submission with a positive [chunk_mb] and a named file is
    accepted: the response carries the second uuid as the job id; the
    registry then holds under that id a queued record with progress 0, no
    parts and no finish time, whose input is the saved upload, and every
    other entry is as before; the thread is started with that id, that path
    and the chunk size; and the upload is saved under the upload directory
    with a name made of the first uuid and the base name of the client's
    file name, so that the client's directories are dropped. *)
Theorem start_registers_a_queued_job (w : World) (cfg : Config) (JOBS : Registry)
    (request : App.Request) (f : App.Upload) (n : Z) :
  Builtins.int (default "0" (App.form request !! "chunk_mb")) = Ok n ->
  0 < n ->
  App.files request !! "file" = Some f ->
  App.filename f <> "" ->
  let job_id := uuid4_hex w 1%nat in
  let name := uuid4_hex w 0%nat ++ "_" ++ OsPath.basename (App.filename f) in
  let dest := OsPath.join (UPLOAD_DIR cfg) name in
  let '(JOBS', effects, response) := App.start w cfg JOBS request in
  response = Ok job_id /\
  (exists j, App.job JOBS' job_id = Ok j /\
             status j = Queued /\ pct j = 0%Q /\ parts j = [] /\
             finished j = None /\ input_path j = dest /\ started j = time w) /\
  (forall other, other <> job_id -> JOBS' !! other = JOBS !! other) /\
  App.saved effects = Some (dest, f) /\
  (exists pattern, App.thread effects = Some (job_id, dest, n, pattern) /\
                   pattern <> Some "") /\
  (Str.contains OsPath.sep (uuid4_hex w 0%nat) = false -> OsPath.basename dest = name).
Proof.
  intros Hint Hpos Hfile Hname job_id name dest. unfold App.start.
  rewrite Hint, Hfile. cbn.
  assert (Hn : (0 <? n) = true) by now apply Z.ltb_lt.
  rewrite Hn.
  assert (Hf : negb (String.eqb (App.filename f) "") = true).
  { apply negb_true_iff. now apply String.eqb_neq. }
  rewrite Hf. fold name. fold dest. fold job_id.
  split; [reflexivity|]. split; [|split; [|split; [|split]]].
  - eexists. unfold App.job. rewrite lookup_insert_eq. split; [reflexivity|].
    now repeat split.
  - intros other Hother. now rewrite lookup_insert_ne.
  - reflexivity.
  - eexists. split; [reflexivity|].
    destruct (String.eqb (Str.strip _) "") eqn:E; [discriminate|].
    apply String.eqb_neq in E. congruence.
  - intros Huuid. apply basename_join. unfold name.
    rewrite !contains_app, Huuid, basename_has_no_sep. reflexivity.
Qed.

Lemma start_registers_a_queued_job_witness :
  let '(JOBS', _, response) :=
    App.start Samples.healthy Samples.cfg Samples.one_job
      (Samples.submission [("chunk_mb", "5")]) in
  response = Ok "bbbb" /\
  exists j, App.job JOBS' "bbbb" = Ok j /\ status j = Queued /\
            input_path j = "/srv/uploads/aaaa_clip.mp4".
Proof.
  pose proof (start_registers_a_queued_job Samples.healthy Samples.cfg Samples.one_job
                (Samples.submission [("chunk_mb", "5")])
                {| App.filename := "clip.mp4"; App.content := "" |} 5
                eq_refl eq_refl eq_refl ltac:(discriminate)) as H.
  cbv zeta in H.
  destruct (App.start Samples.healthy Samples.cfg Samples.one_job
              (Samples.submission [("chunk_mb", "5")])) as [[JOBS' effects] response].
  destruct H as (Hr & (j & Hj & Hs & _ & _ & _ & Hi & _) & _).
  split; [exact Hr|]. exists j. split; [exact Hj|]. split; [exact Hs|exact Hi].
Defined.

(** X14. A submission with a positive [chunk_mb] and no file, or a file
    without a name, is answered with 400 and [Please upload a file]; the
    registry is the same, nothing is saved and no thread is started. *)
Theorem start_without_file_is_rejected (w : World) (cfg : Config) (JOBS : Registry)
    (request : App.Request) (n : Z) :
  Builtins.int (default "0" (App.form request !! "chunk_mb")) = Ok n ->
  0 < n ->
  App.files request !! "file" = None \/
  (exists f, App.files request !! "file" = Some f /\ App.filename f = "") ->
  App.start w cfg JOBS request
  = (JOBS, App.no_effects, App.abort 400 "Please upload a file").
Proof.
  intros Hint Hpos Hfile. unfold App.start. rewrite Hint. cbn.
  assert (Hn : (0 <? n) = true) by now apply Z.ltb_lt.
  rewrite Hn. destruct Hfile as [->|(f & -> & ->)]; reflexivity.
Qed.

Lemma start_without_file_is_rejected_witness :
  App.start Samples.healthy Samples.cfg Samples.one_job
    {| App.form := {[ "chunk_mb" := "5" ]}; App.files := ∅ |}
  = (Samples.one_job, App.no_effects, App.abort 400 "Please upload a file").
Proof.
  apply (start_without_file_is_rejected Samples.healthy Samples.cfg Samples.one_job
           {| App.form := {[ "chunk_mb" := "5" ]}; App.files := ∅ |} 5);
    [reflexivity|lia|left; reflexivity].
Defined.

(** ** What the progress lines and the listing can change *)

Section Lines.

Import Spec.

Lemma same_but_pct_refl (j : Job) : same_but_pct j j.
Proof. now repeat split. Qed.



End Lines.


(** X17. The parts do not depend on the order in which the directory is
    listed: two listings with the same names give the same parts; and a
    name is among the parts exactly when it is in the listing, starts with
    the prefix of the pattern and ends with the extension. *)
Theorem produced_files_ignore_listing_order (out_pattern ext : string)
    (names names' : list string) :
  Permutation names names' ->
  App.produced_files out_pattern ext names = App.produced_files out_pattern ext names' /\
  (forall f, In f (App.produced_files out_pattern ext names) <->
             In f names /\
             Str.startswith f (Str.before "%" (OsPath.basename out_pattern)) = true /\
             Str.endswith f ext = true).
Proof.
  intros Hperm. unfold App.produced_files.
  set (keep := fun f : string => Str.startswith f _ && Str.endswith f ext).
  split.
  - apply (StronglySorted_unique String.le); try apply sorted_is_sorted.
    rewrite !sorted_is_permutation.
    clear -Hperm. induction Hperm; cbn.
    + constructor.
    + destruct (keep x); [now constructor|assumption].
    + destruct (keep x), (keep y); try reflexivity. apply perm_swap.
    + etransitivity; eassumption.
  - intros f. split.
    + intros Hin. apply (Permutation_in _ (sorted_is_permutation _)) in Hin.
      apply filter_In in Hin as [Hin Hk]. unfold keep in Hk.
      apply andb_true_iff in Hk. tauto.
    + intros (Hin & Hp & Hs).
      apply (Permutation_in _ (Permutation_sym (sorted_is_permutation _))).
      apply filter_In. split; [exact Hin|]. unfold keep. now rewrite Hp, Hs.
Qed.

Lemma produced_files_ignore_listing_order_witness :
  App.produced_files "/srv/outputs/clip_part%03d.mp4" ".mp4"
    ["clip_part001.mp4"; "clip_part000.mp4"; "notes.txt"]
  = App.produced_files "/srv/outputs/clip_part%03d.mp4" ".mp4"
    ["notes.txt"; "clip_part000.mp4"; "clip_part001.mp4"].
Proof.
  apply (produced_files_ignore_listing_order "/srv/outputs/clip_part%03d.mp4" ".mp4").
  exact (Permutation_rev ["clip_part001.mp4"; "clip_part000.mp4"; "notes.txt"]).
Defined.

(** ** Where the parts are listed and where they are served from *)

Section Directories.

Lemma no_sep_no_leading_sep (n : string) :
  Str.contains OsPath.sep n = false -> Str.startswith n "/" = false.
Proof.
  intros Hn. destruct (Str.startswith n "/") eqn:E; [|reflexivity].
  apply String.prefix_correct in E. destruct n as [|c n]; [discriminate E|].
  cbn [String.length String.substring] in E.
  cbn [Str.contains] in Hn. apply orb_false_iff in Hn as [Hc _].
  destruct n; injection E as ->; discriminate Hc.
Qed.

Lemma endswith_other_char (d : string) (x : ascii) :
  x <> OsPath.sep -> Str.endswith (d ++ String x "") "/" = false.
Proof.
  intros Hx. induction d as [|c d IH].
  - change ("" ++ String x "") with (String x ""). cbn [Str.endswith].
    assert (H : String.eqb (String x "") "/" = false).
    { apply String.eqb_neq. intros H. injection H as H. now apply Hx. }
    now rewrite H.
  - rewrite app_cons. cbn [Str.endswith]. rewrite IH, orb_false_r.
    apply String.eqb_neq. intros H. injection H as _ H. now destruct d.
Qed.

Lemma not_all_sep (d : string) (x : ascii) (rest : string) :
  x <> OsPath.sep ->
  Str.all_chars (Ascii.eqb OsPath.sep) ((d ++ String x "") ++ rest) = false.
Proof.
  intros Hx. induction d as [|c d IH].
  - change (("" ++ String x "") ++ rest) with (String x rest). cbn [Str.all_chars].
    apply not_eq_sym, Ascii.eqb_neq in Hx. now rewrite Hx.
  - rewrite !app_cons. cbn [Str.all_chars]. rewrite IH. apply andb_false_r.
Qed.

Lemma rstrip_sep (d : string) (x : ascii) :
  x <> OsPath.sep ->
  Str.rstrip_char OsPath.sep ((d ++ String x "") ++ "/") = d ++ String x "".
Proof.
  intros Hx. induction d as [|c d IH].
  - change (("" ++ String x "") ++ "/") with (String x (String OsPath.sep "")).
    cbn [Str.rstrip_char]. rewrite Ascii.eqb_refl.
    apply Ascii.eqb_neq in Hx. now rewrite Hx.
  - rewrite !app_cons. cbn [Str.rstrip_char]. rewrite IH.
    now destruct d.
Qed.

(** The directory of a name joined to a directory that does not end with
    the separator is that directory. *)
Lemma dirname_join (d : string) (x : ascii) (n : string) :
  x <> OsPath.sep -> Str.contains OsPath.sep n = false ->
  OsPath.dirname (OsPath.join (d ++ String x "") n) = d ++ String x "".
Proof.
  intros Hx Hn. unfold OsPath.join.
  rewrite (no_sep_no_leading_sep n Hn), (endswith_other_char d x Hx), orb_false_r.
  assert (He : String.eqb (d ++ String x "") "" = false).
  { apply String.eqb_neq. now destruct d. }
  rewrite He. unfold OsPath.dirname.
  change ("/" ++ n) with (String OsPath.sep n).
  rewrite (rfind_last _ _ _ Hn).
  replace (Z.to_nat (Z.of_nat (String.length (d ++ String x "")) + 1))
    with (String.length ((d ++ String x "") ++ "/"))
    by (rewrite (length_app _ "/"); cbn [String.length]; lia).
  change (String OsPath.sep n) with ("/" ++ n).
  rewrite <- (app_assoc _ "/" n), take_app.
  rewrite (not_all_sep d x "/" Hx).
  assert (He' : String.eqb ((d ++ String x "") ++ "/") "" = false).
  { apply String.eqb_neq. now destruct d. }
  rewrite He'. cbn [negb andb]. now apply rstrip_sep.
Qed.

Lemma derived_name_has_no_sep (input_path : string) :
  Str.contains OsPath.sep
    (fst (OsPath.splitext (OsPath.basename input_path)) ++ "_part%03d"
     ++ App.str_or (snd (OsPath.splitext input_path)) ".mp4") = false.
Proof.
  pose proof (basename_has_no_sep input_path) as Hname.
  pose proof (splitext_joins (OsPath.basename input_path)) as Hj.
  rewrite <- Hj, contains_app in Hname. apply orb_false_iff in Hname as [Hs He].
  pose proof (splitext_basename input_path) as Hsb.
  replace (snd (OsPath.splitext input_path))
    with (snd (OsPath.splitext (OsPath.basename input_path))) by now rewrite Hsb.
  rewrite !contains_app, Hs. unfold App.str_or.
  now destruct (String.eqb _ _).
Qed.

Lemma dirname_without_sep (p : string) :
  Str.contains OsPath.sep p = false -> OsPath.dirname p = "".
Proof.
  intros Hp. unfold OsPath.dirname. now rewrite (rfind_absent _ _ Hp).
Qed.

End Directories.

(** X18. For a job submitted without a pattern, when the output directory of
    the configuration does not end with a slash, the directory the worker
    lists for the parts and the directory [download] serves from are both
    that output directory; for a done job, [download] answers with the
    requested name in that directory when it is a file there, and with 404
    otherwise. *)
Theorem download_serves_the_listed_directory (cfg : Config)
    (isfile : string -> bool) (JOBS : Registry) (args : gmap string string)
    (job_id input_path : string) (j : Job) (d : string) (x : ascii) :
  OUTPUT_DIR cfg = d ++ String x "" ->
  x <> "/"%char ->
  JOBS !! job_id = Some j ->
  status j = Done ->
  out_pattern j = App.derive_out_pattern cfg input_path None ->
  let f := default "" (args !! "f") in
  App.str_or (OsPath.dirname (out_pattern j)) "." = OUTPUT_DIR cfg /\
  App.download cfg isfile JOBS args job_id
  = (if isfile (OsPath.join (OUTPUT_DIR cfg) f)
     then Ok (OUTPUT_DIR cfg, f) else App.abort 404 "").
Proof.
  intros Hdir Hx Hj Hs Hout f.
  assert (Hd : OsPath.dirname (out_pattern j) = OUTPUT_DIR cfg).
  { rewrite Hout. unfold App.derive_out_pattern. rewrite Hdir.
    apply dirname_join; [exact Hx|apply derived_name_has_no_sep]. }
  assert (Hne : String.eqb (OUTPUT_DIR cfg) "" = false).
  { rewrite Hdir. apply String.eqb_neq. now destruct d. }
  split.
  - rewrite Hd. unfold App.str_or. now rewrite Hne.
  - unfold App.download. rewrite Hj, Hs, Hd. cbn [Status_eqb negb].
    unfold App.str_or. rewrite Hne. fold f.
    now destruct (isfile _).
Qed.

Lemma download_serves_the_listed_directory_witness :
  App.download Samples.cfg (fun _ => true)
    {[ "bbbb" := Worker.final (App.run_job Samples.healthy Samples.cfg Samples.clip 5 None)
                              (Samples.job0 Samples.healthy) ]}
    {[ "f" := "aaaa_clip_part000.mp4" ]} "bbbb"
  = Ok ("/srv/outputs", "aaaa_clip_part000.mp4").
Proof.
  exact (proj2 (download_serves_the_listed_directory Samples.cfg (fun _ => true)
                  {[ "bbbb" := Worker.final
                                 (App.run_job Samples.healthy Samples.cfg Samples.clip 5 None)
                                 (Samples.job0 Samples.healthy) ]}
                  {[ "f" := "aaaa_clip_part000.mp4" ]} "bbbb" Samples.clip _
                  "/srv/output" "s"%char eq_refl ltac:(discriminate)
                  eq_refl eq_refl eq_refl)).
Defined.

(** X19. For a job submitted with a pattern that has no directory part, the
    worker lists the current directory [.] for the parts, while [download]
    serves from the output directory of the configuration. *)
Theorem bare_pattern_is_served_from_elsewhere (cfg : Config)
    (isfile : string -> bool) (JOBS : Registry) (args : gmap string string)
    (job_id input_path pattern : string) (j : Job) :
  Str.contains "/" pattern = false ->
  pattern <> "" ->
  JOBS !! job_id = Some j ->
  status j = Done ->
  out_pattern j = App.derive_out_pattern cfg input_path (Some pattern) ->
  let f := default "" (args !! "f") in
  App.str_or (OsPath.dirname (out_pattern j)) "." = "." /\
  App.download cfg isfile JOBS args job_id
  = (if isfile (OsPath.join (OUTPUT_DIR cfg) f)
     then Ok (OUTPUT_DIR cfg, f) else App.abort 404 "").
Proof.
  intros Hp Hne Hj Hs Hout f.
  assert (Hpat : out_pattern j = pattern).
  { rewrite Hout. unfold App.derive_out_pattern, App.str_or.
    apply String.eqb_neq in Hne. now rewrite Hne. }
  assert (Hd : OsPath.dirname (out_pattern j) = "").
  { rewrite Hpat. now apply dirname_without_sep. }
  split.
  - now rewrite Hd.
  - unfold App.download. rewrite Hj, Hs, Hd. cbn [Status_eqb negb].
    change (App.str_or "" (OUTPUT_DIR cfg)) with (OUTPUT_DIR cfg). fold f.
    now destruct (isfile _).
Qed.

Lemma bare_pattern_is_served_from_elsewhere_witness :
  App.download Samples.cfg (fun _ => true)
    {[ "bbbb" := set_out_pattern "out_%03d.mp4" (set_status Done (Samples.job0 Samples.healthy)) ]}
    {[ "f" := "out_000.mp4" ]} "bbbb"
  = Ok ("/srv/outputs", "out_000.mp4").
Proof.
  exact (proj2 (bare_pattern_is_served_from_elsewhere Samples.cfg (fun _ => true)
                  {[ "bbbb" := set_out_pattern "out_%03d.mp4"
                                 (set_status Done (Samples.job0 Samples.healthy)) ]}
                  {[ "f" := "out_000.mp4" ]} "bbbb" Samples.clip "out_%03d.mp4" _
                  eq_refl ltac:(discriminate) eq_refl eq_refl eq_refl)).
Defined.

(** ** The command line tool *)

(** X20. [main] ends with exit status 0 exactly when it ran ffmpeg and
    ffmpeg returned 0. *)
Theorem main_succeeds_iff_ffmpeg_does (w : World) (isfile : string -> bool)
    (check_call : list string -> Z) (args : Slice.Args) :
  Slice.exit_code (Slice.main w isfile check_call args) = 0 <->
  exists cmd, Slice.command (Slice.main w isfile check_call args) = Some cmd /\
              check_call cmd = 0.
Proof.
  unfold Slice.main.
  destruct (negb (Slice.cmd_ok w "ffmpeg") || negb (Slice.cmd_ok w "ffprobe")).
  { cbn. split; [discriminate|]. now intros (cmd & H & _). }
  destruct (negb (isfile (Slice.input_file args))).
  { cbn. split; [discriminate|]. now intros (cmd & H & _). }
  destruct (Slice.compute_segment_time_secs _ _ _) as [seg_time|e].
  2:{ cbn. split; [discriminate|]. now intros (cmd & H & _). }
  destruct (check_call _ =? 0) eqn:E; cbn.
  - apply Z.eqb_eq in E. split; [|reflexivity]. intros _. eauto.
  - apply Z.eqb_neq in E. split; [contradiction|].
    intros (cmd & [= <-] & H). contradiction.
Qed.





Lemma main_succeeds_iff_ffmpeg_does_witness :
  Slice.exit_code
    (Slice.main Samples.healthy (fun _ => true) (fun _ => 0)
       {| Slice.input_file := Samples.clip; Slice.chunk_mb := 5;
          Slice.output_pattern := None |}) = 0.
Proof.
  apply (proj2 (main_succeeds_iff_ffmpeg_does Samples.healthy (fun _ => true)
                  (fun _ => 0)
                  {| Slice.input_file := Samples.clip; Slice.chunk_mb := 5;
                     Slice.output_pattern := None |})).
  eexists. split; reflexivity.
Defined.
